(** * CreditNexus client: document review workflow and FDC3 adapter

    A shallow embedding of the client code that decides what reaches the
    desktop interoperability bus:

    - [client/src/App.tsx]: the document slot ([documentText],
      [extractedData], [isExtracting]) and its handlers;
    - [client/src/components/ReviewInterface.tsx]: the review screen, its
      Approve / Reject controls and the payload it broadcasts;
    - [hooks/useFDC3]: the capability probe and the [broadcast] callback.

    React state is modelled by explicit state passing; [console], [alert],
    [fetch] and the FDC3 desktop agent are modelled by a trace of effects.
    Promise callbacks run after the synchronous part of the handler that
    created them, so a handler's output has two traces: what happened
    before it returned, and what its promise callbacks did afterwards. *)

From Stdlib Require Import List String Ascii NArith Bool Lia.
From Stdlib Require Import PeanoNat.
From Stdlib Require Import Floats.PrimFloat.
Import ListNotations.

Open Scope string_scope.
Open Scope list_scope.

(** ** JavaScript values used by the client *)

(** A JS [number] is an IEEE 754 binary64. *)
Definition number : Type := float.

(** The loaded document is only trimmed, measured and sent; it is kept as
    the sequence of its UTF-16 code units so that [String.prototype.trim]
    can be written out on the code points ECMAScript names. *)
Definition code_unit : Type := N.
Definition js_text : Type := list code_unit.

(** ECMAScript WhiteSpace and LineTerminator code points, the set that
    [trim] strips: TAB, LF, VT, FF, CR, SP, NBSP, OGHAM SPACE MARK,
    EN QUAD .. HAIR SPACE, LS, PS, NNBSP, MMSP, IDEOGRAPHIC SPACE, BOM. *)
Definition isWhiteSpace (c : code_unit) : bool :=
  ((9 <=? c) && (c <=? 13) ||
   (c =? 32) || (c =? 160) || (c =? 5760) ||
   ((8192 <=? c) && (c <=? 8202)) ||
   (c =? 8232) || (c =? 8233) || (c =? 8239) || (c =? 8287) ||
   (c =? 12288) || (c =? 65279))%N.

Fixpoint trimStart (t : js_text) : js_text :=
  match t with
  | [] => []
  | c :: t' => if isWhiteSpace c then trimStart t' else t
  end.

Definition trimEnd (t : js_text) : js_text := rev (trimStart (rev t)).

Definition trim (t : js_text) : js_text := trimEnd (trimStart t).

(** Truthiness of the two kinds of string the code tests. *)
Definition truthy_text (t : js_text) : bool :=
  match t with [] => false | _ :: _ => true end.

Definition truthy (s : string) : bool :=
  match s with EmptyString => false | String _ _ => true end.

(** [s || d] on strings. *)
Definition or_else (s d : string) : string := if truthy s then s else d.

(** [o || d] where [o] may be [undefined]. *)
Definition or_default (o : option string) (d : string) : string :=
  match o with
  | Some s => or_else s d
  | None => d
  end.

(** ** Data model *)

(** [interface CreditAgreement] (App.tsx 7-17, ReviewInterface.tsx 8-18).
    The response body is never validated and the code reads [parties] and
    [facilities] through [?.], so both may be [undefined] at run time. *)
Module Agreement.

Record Party : Type := mkParty {
  name : string;
  role : string
}.

Record CommitmentAmount : Type := mkCommitment {
  amount : number;
  currency : string
}.

Record Facility : Type := mkFacility {
  facility_name : string;
  commitment_amount : CommitmentAmount;
  maturity_date : string
}.

Record CreditAgreement : Type := mkAgreement {
  agreement_date : string;
  parties : option (list Party);
  facilities : option (list Facility);
  governing_law : string;
  extraction_status : option string
}.

(** An agreement as the interface declares it: both arrays present. *)
Definition well_formed (a : CreditAgreement) : bool :=
  match parties a, facilities a with
  | Some _, Some _ => true
  | _, _ => false
  end.

End Agreement.

(** [interface CreditNexusLoanContext extends Context] (useFDC3 5-12). *)
Module Wire.

Record Facility : Type := mkFacility {
  name : string;
  amount : number;
  currency : string
}.

Record Loan : Type := mkLoan {
  agreementDate : option string;
  parties : option (list Agreement.Party);
  facilities : option (list Facility)
}.

Record CreditNexusLoanContext : Type := mkContext {
  type : string;
  loan : option Loan
}.

End Wire.

Abbreviation CreditAgreement := Agreement.CreditAgreement.
Abbreviation CreditNexusLoanContext := Wire.CreditNexusLoanContext.

(** ** Effects *)

(** What a promise rejects with, or a [throw] raises. *)
Inductive Thrown : Type :=
| Error (message : string)
| TypeError (message : string)
| SyntaxError (message : string).

(** Second argument of the logging calls. *)
Inductive Logged : Type :=
| LContext (c : CreditNexusLoanContext)
| LAgreement (a : CreditAgreement)
| LReason (r : option string)
| LThrown (e : Thrown).

Inductive Effect : Type :=
| console_log (label : string) (arg : option Logged)
| console_error (label : string) (arg : Logged)
| alert (message : string)
| fetch_post (url : string) (text : js_text)
| fdc3_broadcast (c : CreditNexusLoanContext)
| fdc3_addContextListener (contextType : string)
| listener_unsubscribe.

(** Output of a handler: effects before it returns ([now]) and effects of
    the promise callbacks it registered ([later]). *)
Record Out : Type := mkOut {
  now : list Effect;
  later : list Effect
}.

Definition no_out : Out := mkOut [] [].

Definition out_app (o1 o2 : Out) : Out :=
  mkOut (now o1 ++ now o2) (later o1 ++ later o2).

(** The whole trace of one handler run, in the order it is observed. *)
Definition trace (o : Out) : list Effect := now o ++ later o.

(** A handler over component state [S] returning [A]. *)
Definition Handler (S A : Type) : Type := S -> A * S * Out.

Definition ret {S A} (a : A) : Handler S A := fun s => (a, s, no_out).

Definition bind {S A B} (m : Handler S A) (k : A -> Handler S B) : Handler S B :=
  fun s =>
    let '(a, s1, o1) := m s in
    let '(b, s2, o2) := k a s1 in
    (b, s2, out_app o1 o2).

Definition get {S} : Handler S S := fun s => (s, s, no_out).
Definition put {S} (s' : S) : Handler S unit := fun _ => (tt, s', no_out).
Definition emit {S} (e : Effect) : Handler S unit := fun s => (tt, s, mkOut [e] []).
Definition defer {S} (e : Effect) : Handler S unit := fun s => (tt, s, mkOut [] [e]).

Declare Scope handler_scope.
Delimit Scope handler_scope with handler.
Notation "x <- m ;; k" := (bind m (fun x => k))
  (at level 61, m at next level, right associativity) : handler_scope.
Notation "m ;; k" := (bind m (fun _ => k))
  (at level 61, right associativity) : handler_scope.
Open Scope handler_scope.

Definition result_of {S A} (r : A * S * Out) : A := fst (fst r).
Definition state_of {S A} (r : A * S * Out) : S := snd (fst r).
Definition out_of {S A} (r : A * S * Out) : Out := snd r.

(** The payloads a trace handed to the bus transport. *)
Fixpoint broadcasts (t : list Effect) : list CreditNexusLoanContext :=
  match t with
  | [] => []
  | fdc3_broadcast c :: t' => c :: broadcasts t'
  | _ :: t' => broadcasts t'
  end.

(** The requests a trace sent to the extraction endpoint. *)
Fixpoint requests (t : list Effect) : list js_text :=
  match t with
  | [] => []
  | fetch_post _ text :: t' => text :: requests t'
  | _ :: t' => requests t'
  end.

(** ** The FDC3 hook ([useFDC3]) *)

Module UseFDC3.

(** How a promise returned by the desktop agent settles. *)
Inductive Settled : Type :=
| Resolved
| Rejected (error : Thrown).

(** [window.fdc3], as far as the hook uses it. *)
Record DesktopAgent : Type := mkAgent {
  addContextListener : string -> Settled;
  broadcast_to_bus : CreditNexusLoanContext -> Settled
}.

(** The host page.  The hook only runs in a browser, where [window] is
    defined, so the host is characterised by [window.fdc3]. *)
Record Host : Type := mkHost {
  fdc3 : option DesktopAgent
}.

(** The hook's state: [isAvailable], [context], and the [subscription]
    variable captured by the effect's cleanup. *)
Record HookState : Type := mkHook {
  isAvailable : bool;
  context : option CreditNexusLoanContext;
  subscription : bool
}.

(** [useState(false)], [useState(null)], [let subscription = null]. *)
Definition initial : HookState := mkHook false None false.

Definition setIsAvailable (b : bool) : Handler HookState unit :=
  fun s => (tt, mkHook b (context s) (subscription s), no_out).

Definition setContext (c : CreditNexusLoanContext) : Handler HookState unit :=
  fun s => (tt, mkHook (isAvailable s) (Some c) (subscription s), no_out).

Definition setSubscription (b : bool) : Handler HookState unit :=
  fun s => (tt, mkHook (isAvailable s) (context s) b, no_out).

Definition loanContextType : string := "fdc3.creditnexus.loan".

(** [typeof window !== 'undefined' && !!window.fdc3] (line 20). *)
Definition probe (h : Host) : bool :=
  match fdc3 h with
  | Some _ => true
  | None => false
  end.

(** The body of [useEffect(..., [])] (lines 18-44): runs once per mount.
    The listener promise is taken as settled by the time the hook state
    is next read, so [subscription] is set here. *)
Definition mountEffect (h : Host) : Handler HookState unit :=
  let available := probe h in
  setIsAvailable available ;;
  match available, fdc3 h with
  | true, Some agent =>
      emit (fdc3_addContextListener loanContextType) ;;
      match addContextListener agent loanContextType with
      | Resolved => setSubscription true
      | Rejected _ => ret tt
      end
  | _, _ =>
      emit (console_log "[FDC3 Mock] FDC3 not available, using mock mode" None)
  end.

(** The cleanup returned by the effect (lines 35-39). *)
Definition unmountCleanup : Handler HookState unit :=
  s <- get ;;
  if subscription s then emit listener_unsubscribe else ret tt.

(** The listener callback (lines 27-29). *)
Definition onContext (ctx : CreditNexusLoanContext) : Handler HookState unit :=
  setContext ctx.

(** [broadcast] (lines 46-59).  It returns [void]; the promise of
    [window.fdc3.broadcast] is consumed by [.then] / [.catch] here. *)
Definition broadcast {S} (h : Host) (cached : bool)
    (loanContext : CreditNexusLoanContext) : Handler S unit :=
  match cached, fdc3 h with
  | true, Some agent =>
      emit (fdc3_broadcast loanContext) ;;
      match broadcast_to_bus agent loanContext with
      | Resolved =>
          defer (console_log "[FDC3] Broadcast successful:"
                   (Some (LContext loanContext)))
      | Rejected error =>
          defer (console_error "[FDC3] Broadcast failed:" (LThrown error))
      end
  | _, _ =>
      emit (console_log "[FDC3 Mock] Would broadcast:"
              (Some (LContext loanContext)))
  end.

(** [broadcast] as the hook instance exposes it: the callback closes
    over the hook's own [isAvailable]. *)
Definition hookBroadcast (h : Host)
    (loanContext : CreditNexusLoanContext) : Handler HookState unit :=
  s <- get ;;
  broadcast h (isAvailable s) loanContext.

End UseFDC3.

(** ** The application shell ([App.tsx]) *)

Module App.

Record State : Type := mkState {
  documentText : js_text;
  extractedData : option CreditAgreement;
  isExtracting : bool
}.

(** [useState('')], [useState()], [useState(false)]. *)
Definition initial : State := mkState [] None false.

Definition setDocumentText (t : js_text) : Handler State unit :=
  fun s => (tt, mkState t (extractedData s) (isExtracting s), no_out).

Definition setExtractedData (d : option CreditAgreement) : Handler State unit :=
  fun s => (tt, mkState (documentText s) d (isExtracting s), no_out).

Definition setIsExtracting (b : bool) : Handler State unit :=
  fun s => (tt, mkState (documentText s) (extractedData s) b, no_out).

(** [handleFileUpload] (lines 24-31); [file] is [event.target.files?.[0]]
    already read as text. *)
Definition handleFileUpload (file : option js_text) : Handler State unit :=
  match file with
  | None => ret tt
  | Some text =>
      setDocumentText text ;;
      setExtractedData None
  end.

(** [handleFileUpload] from the completion of [await file.text()] on
    (lines 29-30): what runs, later, once the chosen file has been read. *)
Definition handleFileUpload_resume (text : js_text) : Handler State unit :=
  setDocumentText text ;;
  setExtractedData None.

(** What [await response.json()] yields, up to what
    [result.agreement || result] does with it: [null], whose property
    read throws; an object with an [agreement]; an object without one,
    taken as the agreement itself; or a falsy value ([0], [false], [""]),
    which has no [agreement] and is stored as it is.  The code casts what
    it stores to [CreditAgreement] unchecked, and so does the model. *)
Inductive JsonResult : Type :=
| JNull
| JWrapped (agreement : CreditAgreement)
| JBare (result : CreditAgreement)
| JFalsy.

Inductive Body : Type :=
| BodyNotJson (e : Thrown)
| BodyJson (j : JsonResult).

(** How the [fetch] of the extraction endpoint ends. *)
Inductive FetchOutcome : Type :=
| FetchRejected (e : Thrown)
| FetchResponse (ok : bool) (body : Body).

(** The sample agreement of the [catch] block (lines 53-68). *)
Definition mockData : CreditAgreement :=
  Agreement.mkAgreement
    "2023-10-15"
    (Some [Agreement.mkParty "ACME INDUSTRIES INC." "Borrower";
           Agreement.mkParty "GLOBAL BANK CORP." "Lender"])
    (Some [Agreement.mkFacility "Term Loan Facility"
             (Agreement.mkCommitment 500000000%float "USD")
             "2028-10-15"])
    "State of New York"
    (Some "success").

(** The [try] block after the request is sent (lines 44-49): either the
    value handed to [setExtractedData] or what was thrown.  The slot is
    only ever tested for truthiness ([!extractedData], [extractedData &&],
    [if (extractedData)]), so a falsy value in it is the empty slot. *)
Definition tryBlock (o : FetchOutcome) : Thrown + option CreditAgreement :=
  match o with
  | FetchRejected e => inl e
  | FetchResponse false _ => inl (Error "Extraction failed")
  | FetchResponse true (BodyNotJson e) => inl e
  | FetchResponse true (BodyJson JNull) =>
      inl (TypeError "Cannot read properties of null (reading 'agreement')")
  | FetchResponse true (BodyJson (JWrapped agreement)) => inr (Some agreement)
  | FetchResponse true (BodyJson (JBare result)) => inr (Some result)
  | FetchResponse true (BodyJson JFalsy) => inr None
  end.

(** [handleExtract] up to the [await fetch] (lines 33-42): the result
    says whether a request was sent. *)
Definition handleExtract_send : Handler State bool :=
  s <- get ;;
  if negb (truthy_text (trim (documentText s))) then ret false
  else
    setIsExtracting true ;;
    emit (fetch_post "/api/extract" (documentText s)) ;;
    ret true.

(** [handleExtract] from the settlement of the request on (lines 44-71). *)
Definition handleExtract_settle (o : FetchOutcome) : Handler State unit :=
  match tryBlock o with
  | inr stored => setExtractedData stored
  | inl error =>
      emit (console_error "Extraction error:" (LThrown error)) ;;
      setExtractedData (Some mockData)
  end ;;
  setIsExtracting false.

(** [handleExtract] run to completion against a server. *)
Definition handleExtract (server : js_text -> FetchOutcome) : Handler State unit :=
  s <- get ;;
  sent <- handleExtract_send ;;
  if sent then handleExtract_settle (server (documentText s)) else ret tt.

(** [handleApprove] (lines 74-78). *)
Definition handleApprove {S} (data : CreditAgreement) : Handler S unit :=
  emit (console_log "Approved:" (Some (LAgreement data))) ;;
  emit (alert "Data approved and sent to staging area").

(** [handleReject] (lines 80-84). *)
Definition handleReject {S} (reason : option string) : Handler S unit :=
  emit (console_log "Rejected:" (Some (LReason reason))) ;;
  emit (alert ("Data rejected: " ++ or_default reason "No reason provided")%string).

(** The Extract button's [disabled] (line 122). *)
Definition extractDisabled (s : State) : bool :=
  negb (truthy_text (trim (documentText s))) || isExtracting s.

(** The upload card is rendered iff [!extractedData] (line 96). *)
Definition uploadCardRendered (s : State) : bool :=
  match extractedData s with
  | None => true
  | Some _ => false
  end.

End App.

(** ** The review screen ([ReviewInterface.tsx]) *)

Module ReviewInterface.

(** Component state: [rejectionReason] and the state of its [useFDC3()]. *)
Record State : Type := mkState {
  rejectionReason : string;
  hook : UseFDC3.HookState
}.

(** [useState('')] and a freshly created hook. *)
Definition initial : State := mkState "" UseFDC3.initial.

Definition setRejectionReason (r : string) : Handler State unit :=
  fun s => (tt, mkState r (hook s), no_out).

(** Runs a hook handler on the hook part of the component state. *)
Definition onHook {A} (m : Handler UseFDC3.HookState A) : Handler State A :=
  fun s =>
    let '(a, k, o) := m (hook s) in
    (a, mkState (rejectionReason s) k, o).

(** One element of [facilities?.map(f => ...)] (lines 44-48). *)
Definition wireFacility (f : Agreement.Facility) : Wire.Facility :=
  Wire.mkFacility
    (Agreement.facility_name f)
    (Agreement.amount (Agreement.commitment_amount f))
    (Agreement.currency (Agreement.commitment_amount f)).

(** The object literal handed to [broadcast] (lines 39-50). *)
Definition loanContext (extractedData : CreditAgreement) : CreditNexusLoanContext :=
  Wire.mkContext
    "fdc3.creditnexus.loan"
    (Some (Wire.mkLoan
             (Some (Agreement.agreement_date extractedData))
             (Agreement.parties extractedData)
             (option_map (map wireFacility) (Agreement.facilities extractedData)))).

Section Handlers.

Variable h : UseFDC3.Host.
Variable extractedData : option CreditAgreement.
Variable onApprove : CreditAgreement -> Handler State unit.
Variable onReject : option string -> Handler State unit.

(** [handleApprove] (lines 36-53). *)
Definition handleApprove : Handler State unit :=
  match extractedData with
  | Some data =>
      onHook (UseFDC3.hookBroadcast h (loanContext data)) ;;
      onApprove data
  | None => ret tt
  end.

(** [handleReject] (lines 55-57). *)
Definition handleReject : Handler State unit :=
  s <- get ;;
  onReject (Some (or_else (rejectionReason s) "Rejected by analyst")).

End Handlers.

(** [isSuccess] (line 70):
    [extraction_status === 'success' || !extraction_status]. *)
Definition isSuccess (data : CreditAgreement) : bool :=
  match Agreement.extraction_status data with
  | Some status => String.eqb status "success" || negb (truthy status)
  | None => true
  end.

(** [isFailure] (line 71). *)
Definition isFailure (data : CreditAgreement) : bool :=
  match Agreement.extraction_status data with
  | Some status => String.eqb status "irrelevant_document"
  | None => false
  end.

(** The Approve button's [disabled] (line 201); without data the
    component returns the empty card (lines 59-68) and has no button. *)
Definition approveDisabled (extractedData : option CreditAgreement) : bool :=
  match extractedData with
  | Some data => negb (isSuccess data)
  | None => true
  end.

(** The Reject button's [disabled] (line 194). *)
Definition rejectDisabled (extractedData : option CreditAgreement) : bool :=
  match extractedData with
  | Some _ => false
  | None => true
  end.

(** The reason textarea is rendered iff [!isSuccess] (line 181). *)
Definition reasonFieldRendered (extractedData : option CreditAgreement) : bool :=
  match extractedData with
  | Some data => negb (isSuccess data)
  | None => false
  end.

Section Controls.

Variable h : UseFDC3.Host.
Variable extractedData : option CreditAgreement.
Variable onApprove : CreditAgreement -> Handler State unit.
Variable onReject : option string -> Handler State unit.

(** A click on Approve: a disabled button dispatches nothing. *)
Definition clickApprove : Handler State unit :=
  if approveDisabled extractedData then ret tt
  else handleApprove h extractedData onApprove.

(** A click on Reject. *)
Definition clickReject : Handler State unit :=
  if rejectDisabled extractedData then ret tt
  else handleReject onReject.

(** Typing in the reason textarea, when it is on screen. *)
Definition changeReason (value : string) : Handler State unit :=
  if reasonFieldRendered extractedData then setRejectionReason value
  else ret tt.

End Controls.

End ReviewInterface.

(** ** The mounted application *)

(** [App] renders the upload card while there is no [extractedData] and
    [ReviewInterface] once there is (App.tsx 96, 139); the review screen,
    and with it the hook, exists exactly while it is rendered.

    Two of [App]'s handlers suspend: [handleExtract] at [await fetch] and
    [handleFileUpload] at [await file.text()].  Each is split at its
    suspension point: the request in flight is what [isExtracting]
    records, and the file reads in progress are kept in [reads], each with
    the text it will deliver. *)
Module Workflow.

Record World : Type := mkWorld {
  app : App.State;
  review : option ReviewInterface.State;
  reads : list js_text
}.

Definition initial : World := mkWorld App.initial None [].

(** What the user, the file system, the network and the bus can do to
    the page. *)
Inductive Event : Type :=
| FileChange (file : option js_text)
| FileRead (i : nat)
| FileReadFailed (i : nat)
| ExtractClick
| FetchSettled (o : App.FetchOutcome)
| ReasonChange (value : string)
| RejectClick
| ApproveClick
| ContextReceived (ctx : CreditNexusLoanContext).

Definition onApp {A} (m : Handler App.State A) : Handler World A :=
  fun w =>
    let '(a, s, o) := m (app w) in
    (a, mkWorld s (review w) (reads w), o).

(** A handler of the review screen runs only while the screen is mounted. *)
Definition onReview (m : Handler ReviewInterface.State unit) : Handler World unit :=
  fun w =>
    match review w with
    | Some r =>
        let '(_, r', o) := m r in
        (tt, mkWorld (app w) (Some r') (reads w), o)
    | None => (tt, w, no_out)
    end.

Definition setReads (l : list js_text) : Handler World unit :=
  fun w => (tt, mkWorld (app w) (review w) l, no_out).

(** A list without its [i]-th element. *)
Definition without (i : nat) (l : list js_text) : list js_text :=
  firstn i l ++ skipn (S i) l.

(** The handler an event reaches, if the control it comes from is on
    screen and enabled.  A change of the file input only starts the read
    of the chosen file; the rest of [handleFileUpload] runs when that read
    completes, whatever is on screen by then, and not at all if the read
    fails. *)
Definition dispatch (h : UseFDC3.Host) (e : Event) : Handler World unit :=
  w <- get ;;
  let data := App.extractedData (app w) in
  match e with
  | FileChange file =>
      if App.uploadCardRendered (app w)
      then match file with
           | Some text => setReads (reads w ++ [text])
           | None => ret tt
           end
      else ret tt
  | FileRead i =>
      match nth_error (reads w) i with
      | Some text =>
          setReads (without i (reads w)) ;;
          onApp (App.handleFileUpload_resume text)
      | None => ret tt
      end
  | FileReadFailed i =>
      setReads (without i (reads w))
  | ExtractClick =>
      if App.uploadCardRendered (app w) && negb (App.extractDisabled (app w))
      then onApp (_ <- App.handleExtract_send ;; ret tt)
      else ret tt
  | FetchSettled o =>
      if App.isExtracting (app w)
      then onApp (App.handleExtract_settle o)
      else ret tt
  | ReasonChange value =>
      onReview (ReviewInterface.changeReason data value)
  | RejectClick =>
      onReview (ReviewInterface.clickReject data App.handleReject)
  | ApproveClick =>
      onReview (ReviewInterface.clickApprove h data App.handleApprove)
  | ContextReceived ctx =>
      onReview (ReviewInterface.onHook
                  (k <- get ;;
                   if UseFDC3.subscription k then UseFDC3.onContext ctx
                   else ret tt))
  end.

(** Reconciliation after a state change: mount the review screen (running
    the hook's effect) when data appeared, unmount it (running the
    effect's cleanup) when data went away. *)
Definition render (h : UseFDC3.Host) : Handler World unit :=
  fun w =>
    match App.extractedData (app w), review w with
    | Some _, None =>
        let '(_, k, o) := UseFDC3.mountEffect h UseFDC3.initial in
        (tt, mkWorld (app w) (Some (ReviewInterface.mkState "" k)) (reads w), o)
    | None, Some r =>
        let '(_, _, o) := UseFDC3.unmountCleanup (ReviewInterface.hook r) in
        (tt, mkWorld (app w) None (reads w), o)
    | _, _ => (tt, w, no_out)
    end.

(** One event, then the re-render it causes; the observed trace. *)
Definition step (h : UseFDC3.Host) (e : Event) (w : World) : World * list Effect :=
  let '(_, w1, o1) := dispatch h e w in
  let '(_, w2, o2) := render h w1 in
  (w2, trace o1 ++ trace o2).

(** A session: each event arrives in the host as it is at that moment. *)
Fixpoint run (es : list (UseFDC3.Host * Event)) (w : World) : World * list Effect :=
  match es with
  | [] => (w, [])
  | (h, e) :: es' =>
      let '(w1, t1) := step h e w in
      let '(w2, t2) := run es' w1 in
      (w2, t1 ++ t2)
  end.

Definition isFetchSettled (e : Event) : bool :=
  match e with
  | FetchSettled _ => true
  | _ => false
  end.


(** How many times a request settles in a session. *)
Definition settlements (es : list (UseFDC3.Host * Event)) : nat :=
  List.length (filter (fun he => isFetchSettled (snd he)) es).

End Workflow.

(** ** Vocabulary of the properties *)

Module Spec.

(** The statuses under which the review screen lets an analyst approve:
    ['success'], or a status that is unset or empty. *)
Definition approvable (status : option string) : bool :=
  match status with
  | Some s => String.eqb s "success" || String.eqb s ""
  | None => true
  end.

(** Every code unit of a text is white space (the empty text included). *)
Definition blank (t : js_text) : bool := forallb isWhiteSpace t.

(** Name / role of a party, as compared across the mapping. *)
Definition partyPair (p : Agreement.Party) : string * string :=
  (Agreement.name p, Agreement.role p).

(** Name / amount / currency of a facility before the mapping. *)
Definition facilityTriple (f : Agreement.Facility) : string * number * string :=
  (Agreement.facility_name f,
   Agreement.amount (Agreement.commitment_amount f),
   Agreement.currency (Agreement.commitment_amount f)).

(** Name / amount / currency of a facility on the wire. *)
Definition wireTriple (f : Wire.Facility) : string * number * string :=
  (Wire.name f, Wire.amount f, Wire.currency f).

(** The mock-mode log line of [broadcast]. *)
Definition mockLog (c : CreditNexusLoanContext) : Effect :=
  console_log "[FDC3 Mock] Would broadcast:" (Some (LContext c)).

(** What [App.handleApprove] does once the review screen calls it. *)
Definition approvalEffects (data : CreditAgreement) : list Effect :=
  [console_log "Approved:" (Some (LAgreement data));
   alert "Data approved and sent to staging area"].

(** The payloads a trace handed to [broadcast], on the bus or in mock
    mode. *)
Fixpoint published (t : list Effect) : list CreditNexusLoanContext :=
  match t with
  | [] => []
  | fdc3_broadcast c :: t' => c :: published t'
  | console_log label (Some (LContext c)) :: t' =>
      if String.eqb label "[FDC3 Mock] Would broadcast:"
      then c :: published t'
      else published t'
  | _ :: t' => published t'
  end.

End Spec.

(** ** Sample hosts and data *)

Module Sample.

(** A desktop agent that accepts everything. *)
Definition acceptingAgent : UseFDC3.DesktopAgent :=
  UseFDC3.mkAgent (fun _ => UseFDC3.Resolved) (fun _ => UseFDC3.Resolved).

(** A desktop agent whose [broadcast] always rejects. *)
Definition rejectingAgent : UseFDC3.DesktopAgent :=
  UseFDC3.mkAgent (fun _ => UseFDC3.Resolved)
    (fun _ => UseFDC3.Rejected (Error "no channel joined")).

Definition busHost : UseFDC3.Host := UseFDC3.mkHost (Some acceptingAgent).
Definition rejectingHost : UseFDC3.Host := UseFDC3.mkHost (Some rejectingAgent).
Definition bareHost : UseFDC3.Host := UseFDC3.mkHost None.

(** A mounted review screen whose hook found the bus. *)
Definition liveReview : ReviewInterface.State :=
  ReviewInterface.mkState "" (UseFDC3.mkHook true None true).

(** A mounted review screen in mock mode. *)
Definition mockReview : ReviewInterface.State :=
  ReviewInterface.mkState "" (UseFDC3.mkHook false None false).

(** An agreement whose response carried no [extraction_status]. *)
Definition unsetStatus : CreditAgreement :=
  Agreement.mkAgreement
    "2024-01-31"
    (Some [Agreement.mkParty "NORTHWIND LLC" "Borrower"])
    (Some [Agreement.mkFacility "Revolver"
             (Agreement.mkCommitment 1000000%float "EUR") "2029-01-31"])
    "England and Wales"
    None.

(** An agreement extracted with status 'success'. *)
Definition extracted : CreditAgreement :=
  Agreement.mkAgreement
    "2024-01-31"
    (Some [Agreement.mkParty "NORTHWIND LLC" "Borrower";
           Agreement.mkParty "HARBOUR BANK PLC" "Lender"])
    (Some [Agreement.mkFacility "Revolver"
             (Agreement.mkCommitment 1000000%float "EUR") "2029-01-31";
           Agreement.mkFacility "Term Loan B"
             (Agreement.mkCommitment 2500000.5%float "GBP") "2031-01-31"])
    "England and Wales"
    (Some "success").

(** An agreement the extraction flagged as not a credit agreement. *)
Definition irrelevant : CreditAgreement :=
  Agreement.mkAgreement "" (Some []) (Some []) "" (Some "irrelevant_document").

(** " \t\n": a document of white space only. *)
Definition blankText : js_text := [32; 9; 10]%N.

(** "Loan": a document with content. *)
Definition loanText : js_text := [76; 111; 97; 110]%N.

(** "Bond": another document. *)
Definition bondText : js_text := [66; 111; 110; 100]%N.

(** A server that extracts [extracted] from "Loan" and the sample
    agreement from any other text. *)
Definition server : js_text -> App.FetchOutcome :=
  fun text =>
    match text with
    | [76; 111; 97; 110]%N =>
        App.FetchResponse true (App.BodyJson (App.JWrapped extracted))
    | _ => App.FetchResponse true (App.BodyJson (App.JBare App.mockData))
    end.


(** Load "Loan", extract, and approve, with the bus present. *)
Definition plainSession : list (UseFDC3.Host * Workflow.Event) :=
  [(busHost, Workflow.FileChange (Some loanText));
   (busHost, Workflow.FileRead 0);
   (busHost, Workflow.ExtractClick);
   (busHost, Workflow.FetchSettled (server loanText));
   (busHost, Workflow.ApproveClick)].

(** Choose "Loan" and, before it is extracted, "Bond" as well; "Loan" is
    read, extracted and reviewed; then the read of "Bond" completes, and
    Extract is clicked again. *)
Definition lateReadSession : list (UseFDC3.Host * Workflow.Event) :=
  [(busHost, Workflow.FileChange (Some loanText));
   (busHost, Workflow.FileChange (Some bondText));
   (busHost, Workflow.FileRead 0);
   (busHost, Workflow.ExtractClick);
   (busHost, Workflow.FetchSettled (server loanText));
   (busHost, Workflow.FileRead 0);
   (busHost, Workflow.ExtractClick)].

(** A review of [extracted] on screen, with the bus found, nothing in
    flight and no file being read. *)
Definition reviewing : Workflow.World :=
  Workflow.mkWorld (App.mkState loanText (Some extracted) false)
    (Some liveReview) [].

(** A review of the agreement flagged as irrelevant, likewise. *)
Definition reviewingIrrelevant : Workflow.World :=
  Workflow.mkWorld (App.mkState loanText (Some irrelevant) false)
    (Some liveReview) [].

(** A server that is down. *)
Definition deadServer : js_text -> App.FetchOutcome :=
  fun _ => App.FetchRejected (TypeError "Failed to fetch").

End Sample.

(** ** The drop zone ([DropZone.tsx], lines 1-102) *)

(** [s.endsWith(suffix)]: the last [suffix.length] code units of [s]
    are compared with [suffix]; a suffix longer than [s] never matches. *)
Definition endsWith (s suffix : string) : bool :=
  let n := String.length s in
  let m := String.length suffix in
  Nat.leb m n && String.eqb (substring (n - m) m s) suffix.

Module DropZone.

(** A DOM [File], as far as the component reads it. *)
Record File : Type := mkFile {
  name : string;
  type : string;
  size : number
}.

Record State : Type := mkState {
  isDragOver : bool;
  selectedFile : option File;
  error : option string
}.

(** [useState(false)], [useState(null)], [useState(null)]. *)
Definition initial : State := mkState false None None.

(** A handler returns the new state and the files it passed to the
    [onFileSelect] prop, in call order. *)
Definition Step : Type := State -> State * list File.

(** [handleDragOver] (lines 14-17). *)
Definition handleDragOver : Step :=
  fun s => (mkState true (selectedFile s) (error s), []).

(** [handleDragLeave] (lines 19-22). *)
Definition handleDragLeave : Step :=
  fun s => (mkState false (selectedFile s) (error s), []).

(** The test of line 33, negated: what a drop lets through. *)
Definition isPdf (file : File) : bool :=
  negb (negb (String.eqb (type file) "application/pdf")
        && negb (endsWith (name file) ".pdf")).

(** [handleDrop] (lines 24-40); [files] is [e.dataTransfer.files]. *)
Definition handleDrop (files : list File) : Step :=
  fun s =>
    match files with
    | [] => (mkState false (selectedFile s) None, [])
    | file :: _ =>
        if negb (String.eqb (type file) "application/pdf")
           && negb (endsWith (name file) ".pdf")
        then (mkState false (selectedFile s)
                (Some "Only PDF files are supported."), [])
        else (mkState false (Some file) None, [file])
    end.

(** [handleFileInput] (lines 42-48); [files] is [e.target.files], which
    may be [null]. *)
Definition handleFileInput (files : option (list File)) : Step :=
  fun s =>
    match files with
    | Some (file :: _) =>
        (mkState (isDragOver s) (Some file) (error s), [file])
    | _ => (s, [])
    end.

(** The events the element receives (lines 60-70). *)
Inductive Event : Type :=
| DragOver
| DragLeave
| Drop (files : list File)
| FileInput (files : option (list File)).

Definition step (e : Event) : Step :=
  match e with
  | DragOver => handleDragOver
  | DragLeave => handleDragLeave
  | Drop files => handleDrop files
  | FileInput files => handleFileInput files
  end.

Fixpoint run (es : list Event) (s : State) : State * list File :=
  match es with
  | [] => (s, [])
  | e :: es' =>
      let '(s1, c1) := step e s in
      let '(s2, c2) := run es' s1 in
      (s2, c1 ++ c2)
  end.

(** The files of the most recent drop of a session, if there was one. *)
Fixpoint lastDrop (es : list Event) : option (list File) :=
  match es with
  | [] => None
  | e :: es' =>
      match lastDrop es', e with
      | Some files, _ => Some files
      | None, Drop files => Some files
      | None, _ => None
      end
  end.

(** The last element of a list of calls. *)
Definition lastCall (calls : list File) : option File :=
  match rev calls with
  | [] => None
  | f :: _ => Some f
  end.

End DropZone.

(** ** The asset map ([MapView], DropZone.tsx lines 103-318) *)

Module MapView.

(** [interface LoanAsset] (lines 164-174); [null] is [None]. *)
Record LoanAsset : Type := mkAsset {
  id : number;
  loan_id : string;
  collateral_address : option string;
  geo_lat : option number;
  geo_lon : option number;
  risk_status : string;
  last_verified_score : option number;
  spt_threshold : option number;
  current_interest_rate : option number
}.

(** Truthiness of a number: everything but [0], [-0] and [NaN]. *)
Definition truthy_number (x : number) : bool :=
  negb (is_zero x || is_nan x).

(** Truthiness of [number | null]. *)
Definition truthy_coord (o : option number) : bool :=
  match o with
  | Some x => truthy_number x
  | None => false
  end.

(** [assets.filter(a => a.geo_lat && a.geo_lon)] (line 203). *)
Definition validAssets (assets : list LoanAsset) : list LoanAsset :=
  filter (fun a => truthy_coord (geo_lat a) && truthy_coord (geo_lon a)) assets.

(** A coordinate pair as the code passes it on: [geo_lat!] and [geo_lon!]
    assert, but do not check, that the values are not [null]. *)
Definition LatLon : Type := (option number * option number)%type.

Definition position (a : LoanAsset) : LatLon := (geo_lat a, geo_lon a).

(** [center] (lines 206-208). *)
Definition center (assets : list LoanAsset) : LatLon :=
  match validAssets assets with
  | a :: _ => position a
  | [] => (Some 39.8283%float, Some (-98.5795)%float)
  end.

(** [validAssets.find(a => a.id === selectedAssetId)] (line 211). *)
Definition selectedAsset (assets : list LoanAsset)
    (selectedAssetId : option number) : option LoanAsset :=
  find (fun a =>
          match selectedAssetId with
          | Some i => PrimFloat.eqb (id a) i
          | None => false
          end)
       (validAssets assets).

(** What a property read on [statusColors] can give: one of its own
    five entries, a member inherited from [Object.prototype], or
    [undefined]. *)
Inductive Lookup : Type :=
| Own (color : string)
| Inherited (key : string)
| Undefined.

(** The property names every plain object inherits in a browser. *)
Definition objectPrototypeKeys : list string :=
  ["constructor"; "hasOwnProperty"; "isPrototypeOf"; "propertyIsEnumerable";
   "toLocaleString"; "toString"; "valueOf"; "__proto__";
   "__defineGetter__"; "__defineSetter__";
   "__lookupGetter__"; "__lookupSetter__"].

(** [statusColors[key]] (lines 156-162). *)
Definition statusColors (key : string) : Lookup :=
  if String.eqb key "COMPLIANT" then Own "#10b981"
  else if String.eqb key "WARNING" then Own "#f59e0b"
  else if String.eqb key "BREACH" then Own "#ef4444"
  else if String.eqb key "PENDING" then Own "#64748b"
  else if String.eqb key "ERROR" then Own "#dc2626"
  else if existsb (String.eqb key) objectPrototypeKeys then Inherited key
  else Undefined.

(** [statusColors[asset.risk_status] || statusColors.PENDING] (line 254):
    the colours are non-empty strings and inherited members are objects,
    so only [undefined] falls through to the default. *)
Definition markerColor (a : LoanAsset) : Lookup :=
  match statusColors (risk_status a) with
  | Undefined => statusColors "PENDING"
  | found => found
  end.

(** A [<Marker>] (lines 258-265): its key, where it stands, its colour,
    and the asset its click hands to [onAssetSelect].  The popup text is
    left out. *)
Record Marker : Type := mkMarker {
  key : number;
  at_position : LatLon;
  color : Lookup;
  clicks : LoanAsset
}.

Definition marker (a : LoanAsset) : Marker :=
  mkMarker (id a) (position a) (markerColor a) a.

(** What the component returns: the placeholder of lines 213-225, or the
    map of lines 227-316 with its centre, zoom, base layer, markers and,
    when present, the [<MapRecenter>] target. *)
Inductive View : Type :=
| NoAssets
| Map (mapCenter : LatLon) (zoom : nat) (satellite : bool)
      (markers : list Marker) (recenter : option LatLon).

(** [MapView] (lines 193-316); [mapReady] is the component's state. *)
Definition render (assets : list LoanAsset) (selectedAssetId : option number)
    (showSatellite : bool) (mapReady : bool) : View :=
  match validAssets assets with
  | [] => NoAssets
  | _ :: _ =>
      Map (center assets)
          (if Nat.eqb (List.length (validAssets assets)) 1 then 14 else 5)
          showSatellite
          (map marker (validAssets assets))
          (if mapReady
           then option_map position (selectedAsset assets selectedAssetId)
           else None)
  end.

(** A coordinate pair with both parts present and truthy. *)
Definition present (p : LatLon) : bool :=
  truthy_coord (fst p) && truthy_coord (snd p).

(** The markers of a view; the placeholder has none. *)
Definition markersOf (v : View) : list Marker :=
  match v with
  | Map _ _ _ markers _ => markers
  | NoAssets => []
  end.

(** Where a view flies to, if it does. *)
Definition recenterOf (v : View) : option LatLon :=
  match v with
  | Map _ _ _ _ recenter => recenter
  | NoAssets => None
  end.

(** The keys [statusColors] defines itself. *)
Definition ownKeys : list string :=
  ["COMPLIANT"; "WARNING"; "BREACH"; "PENDING"; "ERROR"].

End MapView.

(** ** Reading traces *)

Module Observe.

(** The reasons a trace recorded through [App.handleReject]. *)
Fixpoint rejections (t : list Effect) : list (option string) :=
  match t with
  | [] => []
  | console_log label (Some (LReason r)) :: t' =>
      if String.eqb label "Rejected:" then r :: rejections t'
      else rejections t'
  | _ :: t' => rejections t'
  end.

(** The reason field of a mounted review screen is empty. *)
Definition reason_untouched (w : Workflow.World) : Prop :=
  match Workflow.review w with
  | Some r => ReviewInterface.rejectionReason r = ""
  | None => True
  end.

End Observe.

(** ** Proof automation for handler runs *)

Ltac break_match :=
  match goal with
  | |- context [match ?x with _ => _ end] =>
      lazymatch x with
      | context [match _ with _ => _ end] => fail
      | _ => destruct x eqn:?
      end
  | |- context [if ?x then _ else _] => destruct x eqn:?
  end.

Ltac unfold_handlers :=
  cbv beta iota delta
    [App.handleFileUpload App.handleFileUpload_resume
     App.handleExtract_send App.handleExtract_settle
     App.handleApprove App.handleReject
     App.setDocumentText App.setExtractedData App.setIsExtracting
     ReviewInterface.changeReason ReviewInterface.clickReject
     ReviewInterface.clickApprove ReviewInterface.handleApprove
     ReviewInterface.handleReject ReviewInterface.onHook
     ReviewInterface.setRejectionReason
     UseFDC3.hookBroadcast UseFDC3.broadcast UseFDC3.onContext
     UseFDC3.setContext UseFDC3.unmountCleanup
     bind get ret emit defer].

Ltac unfold_step :=
  unfold Workflow.step, Workflow.dispatch, Workflow.render,
    Workflow.onApp, Workflow.onReview, Workflow.setReads, bind, get, ret.

Ltac unfold_dispatch :=
  unfold Workflow.dispatch, Workflow.onApp, Workflow.onReview,
    Workflow.setReads, bind, get, ret, state_of, out_of; simpl.

(** * Properties *)

(** ** Trimming *)

Lemma trimStart_blank (t : js_text) :
  Spec.blank t = true -> trimStart t = [].
Proof.
  induction t as [|c t IH]; simpl; intros H.
  - reflexivity.
  - apply andb_prop in H. destruct H as [Hc Ht].
    rewrite Hc. exact (IH Ht).
Qed.

Lemma trimStart_nil_blank (t : js_text) :
  trimStart t = [] -> Spec.blank t = true.
Proof.
  induction t as [|c t IH]; simpl; intros H.
  - reflexivity.
  - destruct (isWhiteSpace c) eqn:Hc.
    + simpl. exact (IH H).
    + discriminate H.
Qed.

Lemma blank_rev (t : js_text) :
  Spec.blank (rev t) = Spec.blank t.
Proof.
  unfold Spec.blank.
  induction t as [|c t IH]; simpl.
  - reflexivity.
  - rewrite forallb_app, IH. simpl.
    rewrite andb_true_r. apply andb_comm.
Qed.

(** What [trimStart] leaves is empty or starts with a visible code unit. *)
Lemma trimStart_head (t : js_text) :
  match trimStart t with
  | [] => Spec.blank t = true
  | c :: _ => isWhiteSpace c = false
  end.
Proof.
  induction t as [|c t IH]; simpl.
  - reflexivity.
  - destruct (isWhiteSpace c) eqn:Hc; simpl.
    + destruct (trimStart t); [exact IH | exact IH].
    + exact Hc.
Qed.

(** [text.trim()] is the empty string exactly for blank texts. *)
Lemma trim_nil_iff_blank (t : js_text) :
  trim t = [] <-> Spec.blank t = true.
Proof.
  unfold trim, trimEnd. split.
  - intros H.
    assert (Hr : trimStart (rev (trimStart t)) = []).
    { destruct (trimStart (rev (trimStart t))) as [|x l] eqn:E.
      - reflexivity.
      - simpl in H. destruct (rev l); discriminate H. }
    apply trimStart_nil_blank in Hr. rewrite blank_rev in Hr.
    pose proof (trimStart_head t) as Hh.
    destruct (trimStart t) as [|c u].
    + exact Hh.
    + simpl in Hr. rewrite Hh in Hr. discriminate Hr.
  - intros H. rewrite (trimStart_blank t H). reflexivity.
Qed.

Lemma truthy_trim_blank (t : js_text) :
  truthy_text (trim t) = negb (Spec.blank t).
Proof.
  destruct (Spec.blank t) eqn:Hb.
  - apply trim_nil_iff_blank in Hb. rewrite Hb. reflexivity.
  - destruct (trim t) as [|c u] eqn:E.
    + apply trim_nil_iff_blank in E. congruence.
    + reflexivity.
Qed.

(** ** Extraction requests *)

(** C9: a document text that is empty or white space only never reaches
    the extraction endpoint.  [handleExtract] returns at its guard: it
    sends no request, leaves the state as it was, does nothing else, and
    the Extract button is disabled for such a text. *)
Theorem extract_requires_text
    (server : js_text -> App.FetchOutcome) (s : App.State)
    (Hblank : Spec.blank (App.documentText s) = true) :
  App.handleExtract_send s = (false, s, no_out) /\
  App.handleExtract server s = (tt, s, no_out) /\
  requests (trace (out_of (App.handleExtract server s))) = [] /\
  App.extractDisabled s = true.
Proof.
  assert (Hsend : App.handleExtract_send s = (false, s, no_out)).
  { unfold App.handleExtract_send, bind, get.
    rewrite truthy_trim_blank, Hblank. reflexivity. }
  assert (Hall : App.handleExtract server s = (tt, s, no_out)).
  { unfold App.handleExtract, bind, get. rewrite Hsend. reflexivity. }
  repeat split.
  - exact Hsend.
  - exact Hall.
  - rewrite Hall. reflexivity.
  - unfold App.extractDisabled.
    rewrite truthy_trim_blank, Hblank. reflexivity.
Qed.

Lemma extract_requires_text_witness :
  Spec.blank (App.documentText (App.mkState Sample.blankText None false)) = true /\
  App.handleExtract Sample.deadServer (App.mkState Sample.blankText None false)
    = (tt, App.mkState Sample.blankText None false, no_out).
Proof.
  split.
  - reflexivity.
  - apply (extract_requires_text Sample.deadServer
             (App.mkState Sample.blankText None false)).
    reflexivity.
Defined.


(** ** Rejection *)

Lemma or_else_nonempty (s d : string) :
  truthy s = true -> or_else s d = s.
Proof. unfold or_else. intros ->. reflexivity. Qed.

(** C10: Reject records the typed reason unchanged when there is one, and
    the fixed string 'Rejected by analyst' when the reason is empty (the
    field starts empty, so this covers a reason never given); with the
    application's [onReject] that recorded reason is what is logged and
    shown. *)
Theorem reject_records_reason
    (onReject : option string -> Handler ReviewInterface.State unit)
    (r : ReviewInterface.State) :
  let recorded :=
    if String.eqb (ReviewInterface.rejectionReason r) ""
    then "Rejected by analyst"
    else ReviewInterface.rejectionReason r in
  ReviewInterface.handleReject onReject r = onReject (Some recorded) r /\
  ReviewInterface.handleReject App.handleReject r
    = (tt, r,
       mkOut [console_log "Rejected:" (Some (LReason (Some recorded)));
              alert ("Data rejected: " ++ recorded)%string] []).
Proof.
  destruct r as [reason k]. simpl.
  destruct reason as [|c reason]; simpl.
  - unfold ReviewInterface.handleReject, bind, get. simpl.
    split; [destruct (onReject _ _) as [[u s'] o]; destruct o; reflexivity|].
    reflexivity.
  - unfold ReviewInterface.handleReject, bind, get. simpl.
    split; [destruct (onReject _ _) as [[u s'] o]; destruct o; reflexivity|].
    reflexivity.
Qed.

(** ** The wire payload *)

Lemma wireTriple_wireFacility (f : Agreement.Facility) :
  Spec.wireTriple (ReviewInterface.wireFacility f) = Spec.facilityTriple f.
Proof. reflexivity. Qed.

Lemma wireTriples_map (fs : list Agreement.Facility) :
  map Spec.wireTriple (map ReviewInterface.wireFacility fs)
    = map Spec.facilityTriple fs.
Proof.
  induction fs as [|f fs IH]; simpl.
  - reflexivity.
  - rewrite IH. reflexivity.
Qed.

(** C4: for a well-formed agreement the payload carries the agreement
    date, the parties with every name / role pair, and one wire facility
    per facility with its name, amount and currency taken from
    [facility_name], [commitment_amount.amount] and
    [commitment_amount.currency]; both arrays keep their length and
    order, position by position. *)
Theorem mapping_preserves_fields
    (data : CreditAgreement)
    (ps : list Agreement.Party) (fs : list Agreement.Facility)
    (Hps : Agreement.parties data = Some ps)
    (Hfs : Agreement.facilities data = Some fs) :
  exists wps wfs,
    Wire.loan (ReviewInterface.loanContext data)
      = Some (Wire.mkLoan (Some (Agreement.agreement_date data))
                (Some wps) (Some wfs)) /\
    map Spec.partyPair wps = map Spec.partyPair ps /\
    map Spec.wireTriple wfs = map Spec.facilityTriple fs /\
    List.length wps = List.length ps /\
    List.length wfs = List.length fs /\
    (forall i, nth_error wps i = nth_error ps i) /\
    (forall i, nth_error wfs i
               = option_map ReviewInterface.wireFacility (nth_error fs i)).
Proof.
  exists ps, (map ReviewInterface.wireFacility fs).
  unfold ReviewInterface.loanContext. simpl.
  rewrite Hps, Hfs. simpl.
  repeat split.
  - apply wireTriples_map.
  - apply length_map.
  - intros i. apply nth_error_map.
Qed.

Lemma mapping_preserves_fields_witness :
  exists wps wfs,
    Wire.loan (ReviewInterface.loanContext App.mockData)
      = Some (Wire.mkLoan (Some "2023-10-15") (Some wps) (Some wfs)) /\
    map Spec.partyPair wps
      = [("ACME INDUSTRIES INC.", "Borrower"); ("GLOBAL BANK CORP.", "Lender")] /\
    map Spec.wireTriple wfs
      = [("Term Loan Facility", 500000000%float, "USD")].
Proof.
  destruct (mapping_preserves_fields App.mockData
              [Agreement.mkParty "ACME INDUSTRIES INC." "Borrower";
               Agreement.mkParty "GLOBAL BANK CORP." "Lender"]
              [Agreement.mkFacility "Term Loan Facility"
                 (Agreement.mkCommitment 500000000%float "USD") "2028-10-15"]
              eq_refl eq_refl)
    as (wps & wfs & Hloan & Hp & Hf & _).
  exists wps, wfs. split; [exact Hloan | split; [exact Hp | exact Hf]].
Defined.

(** C2, as the specification words it, fails: the payload published for
    the sample agreement does not carry the discriminant "interop.loan". *)
Lemma published_type_is_not_interop_loan :
  broadcasts
    (trace (out_of (ReviewInterface.handleApprove Sample.busHost
                      (Some App.mockData) App.handleApprove Sample.liveReview)))
    = [ReviewInterface.loanContext App.mockData] /\
  Wire.type (ReviewInterface.loanContext App.mockData) <> "interop.loan".
Proof.
  split.
  - reflexivity.
  - simpl. discriminate.
Qed.

(** Whatever the host and the cached capability, an approval hands one
    payload to [broadcast]: the mapped agreement. *)
Lemma handleApprove_published
    (h : UseFDC3.Host) (data : CreditAgreement) (r : ReviewInterface.State) :
  Spec.published
    (trace (out_of (ReviewInterface.handleApprove h (Some data)
                      App.handleApprove r)))
    = [ReviewInterface.loanContext data].
Proof.
  unfold ReviewInterface.handleApprove, ReviewInterface.onHook,
    UseFDC3.hookBroadcast, UseFDC3.broadcast, bind, get.
  destruct (UseFDC3.isAvailable (ReviewInterface.hook r));
    [destruct (UseFDC3.fdc3 h) as [agent|]|]; try reflexivity.
  unfold emit. destruct (UseFDC3.broadcast_to_bus agent _); reflexivity.
Qed.

(** C2 (amended): the payload built for any approved agreement is
    [{type: "fdc3.creditnexus.loan", loan: {agreementDate, parties,
    facilities}}] with the facilities renamed to [{name, amount,
    currency}], and it is the one payload an approval hands to
    [broadcast], on the bus or in mock mode. *)
Theorem published_payload_shape
    (h : UseFDC3.Host) (data : CreditAgreement) (r : ReviewInterface.State) :
  ReviewInterface.loanContext data
    = Wire.mkContext "fdc3.creditnexus.loan"
        (Some (Wire.mkLoan
                 (Some (Agreement.agreement_date data))
                 (Agreement.parties data)
                 (option_map (map ReviewInterface.wireFacility)
                    (Agreement.facilities data)))) /\
  Spec.published
    (trace (out_of (ReviewInterface.handleApprove h (Some data)
                      App.handleApprove r)))
    = [ReviewInterface.loanContext data] /\
  Forall (fun c => Wire.type c = "fdc3.creditnexus.loan")
    (Spec.published
       (trace (out_of (ReviewInterface.handleApprove h (Some data)
                         App.handleApprove r)))).
Proof.
  split; [reflexivity|]. split; [apply handleApprove_published|].
  rewrite handleApprove_published. constructor; [reflexivity | constructor].
Qed.

(** ** Approval *)

Lemma truthy_eqb_empty (s : string) : negb (truthy s) = String.eqb s "".
Proof. destruct s; reflexivity. Qed.

Lemma isSuccess_approvable (data : CreditAgreement) :
  ReviewInterface.isSuccess data
    = Spec.approvable (Agreement.extraction_status data).
Proof.
  unfold ReviewInterface.isSuccess, Spec.approvable.
  destruct (Agreement.extraction_status data) as [s|].
  - rewrite truthy_eqb_empty. reflexivity.
  - reflexivity.
Qed.

(** [broadcast] never touches the state of its caller and returns
    nothing; its output is one of three shapes. *)
Lemma broadcast_cases {S} (h : UseFDC3.Host) (cached : bool)
    (c : CreditNexusLoanContext) (s : S) :
  UseFDC3.broadcast h cached c s
    = (tt, s,
       match cached, UseFDC3.fdc3 h with
       | true, Some agent =>
           mkOut [fdc3_broadcast c]
             match UseFDC3.broadcast_to_bus agent c with
             | UseFDC3.Resolved =>
                 [console_log "[FDC3] Broadcast successful:" (Some (LContext c))]
             | UseFDC3.Rejected error =>
                 [console_error "[FDC3] Broadcast failed:" (LThrown error)]
             end
       | _, _ => mkOut [Spec.mockLog c] []
       end).
Proof.
  unfold UseFDC3.broadcast.
  destruct cached; [destruct (UseFDC3.fdc3 h) as [agent|]|]; try reflexivity.
  unfold bind, emit, defer.
  destruct (UseFDC3.broadcast_to_bus agent c); reflexivity.
Qed.

(** [handleApprove] with data: broadcast, then the application's
    [onApprove]; the component state is left as it was. *)
Lemma handleApprove_some (h : UseFDC3.Host) (data : CreditAgreement)
    (r : ReviewInterface.State) :
  ReviewInterface.handleApprove h (Some data) App.handleApprove r
    = (tt, r,
       out_app
         (out_of (UseFDC3.broadcast h
                    (UseFDC3.isAvailable (ReviewInterface.hook r))
                    (ReviewInterface.loanContext data) r))
         (mkOut (Spec.approvalEffects data) [])).
Proof.
  rewrite broadcast_cases.
  unfold ReviewInterface.handleApprove, ReviewInterface.onHook,
    UseFDC3.hookBroadcast, bind, get.
  rewrite broadcast_cases.
  destruct r as [reason k]. simpl.
  destruct (UseFDC3.isAvailable k);
    [destruct (UseFDC3.fdc3 h) as [agent|]|]; reflexivity.
Qed.

(** C1, as the specification words it, fails: an agreement whose
    [extraction_status] is unset is approved and published like a
    successful one. *)
Lemma approve_publishes_unset_status :
  Agreement.extraction_status Sample.unsetStatus = None /\
  ReviewInterface.approveDisabled (Some Sample.unsetStatus) = false /\
  trace (out_of (ReviewInterface.clickApprove Sample.busHost
                   (Some Sample.unsetStatus) App.handleApprove
                   Sample.liveReview))
    = [fdc3_broadcast (ReviewInterface.loanContext Sample.unsetStatus);
       console_log "Approved:" (Some (LAgreement Sample.unsetStatus));
       alert "Data approved and sent to staging area";
       console_log "[FDC3] Broadcast successful:"
         (Some (LContext (ReviewInterface.loanContext Sample.unsetStatus)))].
Proof. repeat split. Qed.

(** C1 (amended): a click on Approve maps and publishes exactly when an
    agreement is stored and its [extraction_status] is 'success', unset or
    empty.  With any other status, or with no agreement, the control is
    disabled: the click publishes nothing, changes nothing and signals
    nothing. *)
Theorem approve_gate
    (h : UseFDC3.Host) (extractedData : option CreditAgreement)
    (r : ReviewInterface.State) :
  ReviewInterface.clickApprove h extractedData App.handleApprove r
    = match extractedData with
      | Some data =>
          if Spec.approvable (Agreement.extraction_status data)
          then (tt, r,
                out_app
                  (out_of (UseFDC3.broadcast h
                             (UseFDC3.isAvailable (ReviewInterface.hook r))
                             (ReviewInterface.loanContext data) r))
                  (mkOut (Spec.approvalEffects data) []))
          else (tt, r, no_out)
      | None => (tt, r, no_out)
      end /\
  Spec.published
    (trace (out_of (ReviewInterface.clickApprove h extractedData
                      App.handleApprove r)))
    = match extractedData with
      | Some data =>
          if Spec.approvable (Agreement.extraction_status data)
          then [ReviewInterface.loanContext data]
          else []
      | None => []
      end.
Proof.
  unfold ReviewInterface.clickApprove, ReviewInterface.approveDisabled.
  destruct extractedData as [data|]; [|split; reflexivity].
  rewrite isSuccess_approvable.
  destruct (Spec.approvable (Agreement.extraction_status data)); simpl.
  - split; [apply handleApprove_some|].
    apply handleApprove_published.
  - split; reflexivity.
Qed.

(** ** Extraction failures *)

(** C3, as the specification words it, fails: when the server cannot be
    reached the slot receives the sample agreement, tagged 'success' and
    open for approval, and the state holds no trace of the error. *)
Lemma failed_extraction_stores_placeholder :
  App.handleExtract Sample.deadServer (App.mkState Sample.loanText None false)
    = (tt,
       App.mkState Sample.loanText (Some App.mockData) false,
       mkOut [fetch_post "/api/extract" Sample.loanText;
              console_error "Extraction error:"
                (LThrown (TypeError "Failed to fetch"))] []) /\
  Agreement.extraction_status App.mockData = Some "success" /\
  ReviewInterface.approveDisabled (Some App.mockData) = false.
Proof. repeat split. Qed.

Lemma settle_cases (o : App.FetchOutcome) (s : App.State) :
  App.handleExtract_settle o s
    = match App.tryBlock o with
      | inl error =>
          (tt, App.mkState (App.documentText s) (Some App.mockData) false,
           mkOut [console_error "Extraction error:" (LThrown error)] [])
      | inr stored =>
          (tt, App.mkState (App.documentText s) stored false, no_out)
      end.
Proof.
  unfold App.handleExtract_settle.
  destruct (App.tryBlock o); reflexivity.
Qed.

(** C3 (amended): when the extraction call fails (the request is rejected,
    the response is not ok, or its body is not JSON or is null) the error
    is written to the console, the slot receives the fixed sample
    agreement, and [isExtracting] is cleared; the document text is kept.
    A response that is ok and parses is stored as it is. *)
Theorem extraction_failure_falls_back
    (s : App.State) (e : Thrown) (body : App.Body) (data : CreditAgreement) :
  let fallback error :=
    (tt, App.mkState (App.documentText s) (Some App.mockData) false,
     mkOut [console_error "Extraction error:" (LThrown error)] []) in
  let stored d :=
    (tt, App.mkState (App.documentText s) (Some d) false, no_out) in
  App.handleExtract_settle (App.FetchRejected e) s = fallback e /\
  App.handleExtract_settle (App.FetchResponse false body) s
    = fallback (Error "Extraction failed") /\
  App.handleExtract_settle (App.FetchResponse true (App.BodyNotJson e)) s
    = fallback e /\
  App.handleExtract_settle (App.FetchResponse true (App.BodyJson App.JNull)) s
    = fallback
        (TypeError "Cannot read properties of null (reading 'agreement')") /\
  App.handleExtract_settle
    (App.FetchResponse true (App.BodyJson (App.JWrapped data))) s = stored data /\
  App.handleExtract_settle
    (App.FetchResponse true (App.BodyJson (App.JBare data))) s = stored data.
Proof.
  simpl. rewrite !settle_cases. simpl.
  destruct body; repeat split; reflexivity.
Qed.

(** ** Publishing *)

(** C5, as the specification words it, fails: when the bus rejects the
    broadcast, what [broadcast] returns and does before returning is what
    it returns and does when the bus accepts; the approval goes on to
    [onApprove], and the rejection only reaches the console. *)
Lemma rejected_broadcast_is_swallowed :
  UseFDC3.broadcast_to_bus Sample.rejectingAgent
    (ReviewInterface.loanContext App.mockData)
    = UseFDC3.Rejected (Error "no channel joined") /\
  (result_of (UseFDC3.broadcast Sample.rejectingHost true
                (ReviewInterface.loanContext App.mockData) tt),
   now (out_of (UseFDC3.broadcast Sample.rejectingHost true
                  (ReviewInterface.loanContext App.mockData) tt)))
    = (result_of (UseFDC3.broadcast Sample.busHost true
                    (ReviewInterface.loanContext App.mockData) tt),
       now (out_of (UseFDC3.broadcast Sample.busHost true
                      (ReviewInterface.loanContext App.mockData) tt))) /\
  ReviewInterface.handleApprove Sample.rejectingHost (Some App.mockData)
    App.handleApprove Sample.liveReview
    = (tt, Sample.liveReview,
       mkOut [fdc3_broadcast (ReviewInterface.loanContext App.mockData);
              console_log "Approved:" (Some (LAgreement App.mockData));
              alert "Data approved and sent to staging area"]
             [console_error "[FDC3] Broadcast failed:"
                (LThrown (Error "no channel joined"))]).
Proof. repeat split. Qed.

(** C5 (amended): when the bus is present and rejects a broadcast,
    [broadcast] hands the payload to the bus, returns nothing to its
    caller, and its own [catch] writes the rejection to the console; the
    approval proceeds to [onApprove] as it does after a successful
    broadcast. *)
Theorem rejected_broadcast_is_logged
    (agent : UseFDC3.DesktopAgent) (data : CreditAgreement) (e : Thrown)
    (r : ReviewInterface.State)
    (Hcached : UseFDC3.isAvailable (ReviewInterface.hook r) = true)
    (Hrejects : UseFDC3.broadcast_to_bus agent (ReviewInterface.loanContext data)
                = UseFDC3.Rejected e) :
  UseFDC3.broadcast (UseFDC3.mkHost (Some agent)) true
    (ReviewInterface.loanContext data) r
    = (tt, r,
       mkOut [fdc3_broadcast (ReviewInterface.loanContext data)]
             [console_error "[FDC3] Broadcast failed:" (LThrown e)]) /\
  ReviewInterface.handleApprove (UseFDC3.mkHost (Some agent)) (Some data)
    App.handleApprove r
    = (tt, r,
       mkOut (fdc3_broadcast (ReviewInterface.loanContext data)
                :: Spec.approvalEffects data)
             [console_error "[FDC3] Broadcast failed:" (LThrown e)]).
Proof.
  split.
  - rewrite broadcast_cases. simpl. rewrite Hrejects. reflexivity.
  - rewrite handleApprove_some, broadcast_cases, Hcached. simpl.
    rewrite Hrejects. reflexivity.
Qed.

Lemma rejected_broadcast_is_logged_witness :
  ReviewInterface.handleApprove (UseFDC3.mkHost (Some Sample.rejectingAgent))
    (Some App.mockData) App.handleApprove Sample.liveReview
    = (tt, Sample.liveReview,
       mkOut (fdc3_broadcast (ReviewInterface.loanContext App.mockData)
                :: Spec.approvalEffects App.mockData)
             [console_error "[FDC3] Broadcast failed:"
                (LThrown (Error "no channel joined"))]).
Proof.
  apply (rejected_broadcast_is_logged Sample.rejectingAgent App.mockData
           (Error "no channel joined") Sample.liveReview).
  - reflexivity.
  - reflexivity.
Defined.

(** C6: when the bus capability is absent (the cached flag is false, or
    the host exposes no bus) [broadcast] logs the payload it would have
    sent, returns normally with its caller's state untouched, and hands
    nothing to the bus transport. *)
Theorem mock_publish_succeeds {S : Type}
    (h : UseFDC3.Host) (cached : bool) (c : CreditNexusLoanContext) (s : S)
    (Habsent : cached = false \/ UseFDC3.fdc3 h = None) :
  UseFDC3.broadcast h cached c s
    = (tt, s,
       mkOut [console_log "[FDC3 Mock] Would broadcast:" (Some (LContext c))] []) /\
  broadcasts (trace (out_of (UseFDC3.broadcast h cached c s))) = [].
Proof.
  assert (Hout : UseFDC3.broadcast h cached c s
                 = (tt, s, mkOut [Spec.mockLog c] [])).
  { rewrite broadcast_cases.
    destruct Habsent as [-> | ->]; [reflexivity|].
    destruct cached; reflexivity. }
  split.
  - exact Hout.
  - rewrite Hout. reflexivity.
Qed.

Lemma mock_publish_succeeds_witness :
  UseFDC3.broadcast Sample.bareHost false
    (ReviewInterface.loanContext App.mockData) tt
    = (tt, tt,
       mkOut [console_log "[FDC3 Mock] Would broadcast:"
                (Some (LContext (ReviewInterface.loanContext App.mockData)))] []).
Proof.
  apply (mock_publish_succeeds Sample.bareHost false
           (ReviewInterface.loanContext App.mockData) tt).
  left. reflexivity.
Defined.

(** ** The mounted application: capability and document slot *)

Lemma requests_app (t1 t2 : list Effect) :
  requests (t1 ++ t2) = requests t1 ++ requests t2.
Proof.
  induction t1 as [|e t1 IH]; simpl.
  - reflexivity.
  - destruct e; simpl; try exact IH. f_equal. exact IH.
Qed.

Lemma mountEffect_cases (h : UseFDC3.Host) (k : UseFDC3.HookState) :
  UseFDC3.mountEffect h k
    = match UseFDC3.fdc3 h with
      | Some agent =>
          (tt,
           UseFDC3.mkHook true (UseFDC3.context k)
             match UseFDC3.addContextListener agent "fdc3.creditnexus.loan" with
             | UseFDC3.Resolved => true
             | UseFDC3.Rejected _ => UseFDC3.subscription k
             end,
           mkOut [fdc3_addContextListener "fdc3.creditnexus.loan"] [])
      | None =>
          (tt, UseFDC3.mkHook false (UseFDC3.context k) (UseFDC3.subscription k),
           mkOut [console_log
                    "[FDC3 Mock] FDC3 not available, using mock mode" None] [])
      end.
Proof.
  unfold UseFDC3.mountEffect, UseFDC3.probe, bind.
  destruct (UseFDC3.fdc3 h) as [agent|]; simpl; [|reflexivity].
  unfold UseFDC3.loanContextType.
  destruct (UseFDC3.addContextListener agent _); reflexivity.
Qed.

(** Re-rendering leaves the application state and the pending reads
    alone, and neither sends a request nor publishes. *)
Lemma render_quiet (h : UseFDC3.Host) (w : Workflow.World) :
  Workflow.app (state_of (Workflow.render h w)) = Workflow.app w /\
  Workflow.reads (state_of (Workflow.render h w)) = Workflow.reads w /\
  requests (trace (out_of (Workflow.render h w))) = [] /\
  Spec.published (trace (out_of (Workflow.render h w))) = [].
Proof.
  unfold Workflow.render.
  destruct (App.extractedData (Workflow.app w)) as [d|];
    destruct (Workflow.review w) as [r|]; simpl; try (repeat split; reflexivity).
  - rewrite mountEffect_cases.
    destruct (UseFDC3.fdc3 h); repeat split.
  - unfold UseFDC3.unmountCleanup, bind, get.
    destruct (UseFDC3.subscription (ReviewInterface.hook r)); repeat split.
Qed.

Lemma step_split (h : UseFDC3.Host) (e : Workflow.Event) (w : Workflow.World) :
  Workflow.step h e w
    = (state_of (Workflow.render h (state_of (Workflow.dispatch h e w))),
       trace (out_of (Workflow.dispatch h e w))
         ++ trace (out_of (Workflow.render h (state_of (Workflow.dispatch h e w))))).
Proof.
  unfold Workflow.step.
  destruct (Workflow.dispatch h e w) as [[u w1] o1].
  unfold state_of, out_of. simpl.
  destruct (Workflow.render h w1) as [[u2 w2] o2]. reflexivity.
Qed.

Lemma run_cons (h : UseFDC3.Host) (e : Workflow.Event)
    (es : list (UseFDC3.Host * Workflow.Event)) (w : Workflow.World) :
  Workflow.run ((h, e) :: es) w
    = (fst (Workflow.run es (fst (Workflow.step h e w))),
       snd (Workflow.step h e w)
         ++ snd (Workflow.run es (fst (Workflow.step h e w)))).
Proof.
  simpl. destruct (Workflow.step h e w) as [w1 t1]. simpl.
  destruct (Workflow.run es w1) as [w2 t2]. reflexivity.
Qed.

(** While the review screen stays mounted, no event changes the flag its
    hook cached. *)
Lemma step_keeps_capability
    (h : UseFDC3.Host) (e : Workflow.Event) (w : Workflow.World) :
  match Workflow.review w, Workflow.review (fst (Workflow.step h e w)) with
  | Some r, Some r' =>
      UseFDC3.isAvailable (ReviewInterface.hook r')
        = UseFDC3.isAvailable (ReviewInterface.hook r)
  | _, _ => True
  end.
Proof.
  destruct w as [a rv]. destruct rv as [r|]; [|exact I].
  destruct a as [text data busy]. destruct r as [reason k].
  unfold_step. destruct e; simpl; unfold_handlers; simpl.
  all: repeat (break_match; simpl in *;
               try congruence; try exact I; try reflexivity).
Qed.

Lemma published_app (t1 t2 : list Effect) :
  Spec.published (t1 ++ t2) = Spec.published t1 ++ Spec.published t2.
Proof.
  induction t1 as [|e t1 IH]; simpl.
  - reflexivity.
  - destruct e as [label arg| | | | | |]; simpl; try exact IH.
    + destruct arg as [[c|a|r|x]|]; try exact IH.
      destruct (String.eqb label _); [simpl; f_equal|]; exact IH.
    + f_equal. exact IH.
Qed.



(** C8, as the specification words it, fails: with the same cached flag
    (true), [broadcast] goes to the bus in a host that exposes one and
    falls back to the mock log in a host that no longer does; the branch
    also reads [window.fdc3] at the time of the call. *)
Lemma broadcast_rechecks_host :
  out_of (UseFDC3.broadcast Sample.busHost true
            (ReviewInterface.loanContext App.mockData) tt)
    = mkOut [fdc3_broadcast (ReviewInterface.loanContext App.mockData)]
            [console_log "[FDC3] Broadcast successful:"
               (Some (LContext (ReviewInterface.loanContext App.mockData)))] /\
  out_of (UseFDC3.broadcast Sample.bareHost true
            (ReviewInterface.loanContext App.mockData) tt)
    = mkOut [console_log "[FDC3 Mock] Would broadcast:"
               (Some (LContext (ReviewInterface.loanContext App.mockData)))] [].
Proof. split; reflexivity. Qed.

(** C8 (amended): the capability flag is computed by the hook's mount
    effect, from the host as it is then, and no later event changes it
    while the review screen stays mounted; [broadcast] itself leaves the
    hook state alone.  A publish goes to the bus exactly when the cached
    flag is true and the host still exposes the bus when the call is
    made; when the cached flag is false it only logs, in every host.  The
    one subscription is made by the mount effect, on the value it has
    just computed, and is replaced by a log line when there is no bus. *)
Theorem capability_is_cached
    (h : UseFDC3.Host) (k : UseFDC3.HookState) (cached : bool)
    (c : CreditNexusLoanContext) (e : Workflow.Event) (w : Workflow.World) :
  UseFDC3.isAvailable (state_of (UseFDC3.mountEffect h k)) = UseFDC3.probe h /\
  state_of (UseFDC3.hookBroadcast h c k) = k /\
  match Workflow.review w, Workflow.review (fst (Workflow.step h e w)) with
  | Some r, Some r' =>
      UseFDC3.isAvailable (ReviewInterface.hook r')
        = UseFDC3.isAvailable (ReviewInterface.hook r)
  | _, _ => True
  end /\
  broadcasts (trace (out_of (UseFDC3.broadcast h cached c k)))
    = (if cached && UseFDC3.probe h then [c] else []) /\
  UseFDC3.broadcast h false c k = (tt, k, mkOut [Spec.mockLog c] []) /\
  out_of (UseFDC3.mountEffect h k)
    = (if UseFDC3.probe h
       then mkOut [fdc3_addContextListener "fdc3.creditnexus.loan"] []
       else mkOut [console_log
                     "[FDC3 Mock] FDC3 not available, using mock mode" None] []).
Proof.
  split; [|split; [|split; [|split; [|split]]]].
  - unfold UseFDC3.mountEffect, UseFDC3.probe, bind.
    destruct (UseFDC3.fdc3 h) as [agent|]; simpl; [|reflexivity].
    destruct (UseFDC3.addContextListener agent _); reflexivity.
  - unfold UseFDC3.hookBroadcast, bind, get.
    rewrite broadcast_cases. reflexivity.
  - apply step_keeps_capability.
  - rewrite broadcast_cases. unfold UseFDC3.probe.
    destruct cached; [|reflexivity].
    destruct (UseFDC3.fdc3 h) as [agent|]; [|reflexivity].
    simpl. destruct (UseFDC3.broadcast_to_bus agent c); reflexivity.
  - rewrite broadcast_cases. reflexivity.
  - unfold UseFDC3.mountEffect, UseFDC3.probe, bind.
    destruct (UseFDC3.fdc3 h) as [agent|]; simpl; [|reflexivity].
    destruct (UseFDC3.addContextListener agent _); reflexivity.
Qed.

(** A whole session, from the first render: the request carries the
    loaded text, the review screen mounts when the answer arrives and
    subscribes, and the approval reaches the bus. *)
Example plain_session_trace :
  snd (Workflow.run Sample.plainSession Workflow.initial)
    = [fetch_post "/api/extract" Sample.loanText;
       fdc3_addContextListener "fdc3.creditnexus.loan";
       fdc3_broadcast (ReviewInterface.loanContext Sample.extracted);
       console_log "Approved:" (Some (LAgreement Sample.extracted));
       alert "Data approved and sent to staging area";
       console_log "[FDC3] Broadcast successful:"
         (Some (LContext (ReviewInterface.loanContext Sample.extracted)))].
Proof. reflexivity. Qed.





(** ** Worked examples *)

Example trim_strips_both_ends :
  trim [32; 9; 76; 32; 111; 10; 160]%N = [76; 32; 111]%N.
Proof. reflexivity. Qed.

(** The agreement of the [catch] block, mapped. *)
Example sample_payload :
  ReviewInterface.loanContext App.mockData
    = Wire.mkContext "fdc3.creditnexus.loan"
        (Some (Wire.mkLoan
                 (Some "2023-10-15")
                 (Some [Agreement.mkParty "ACME INDUSTRIES INC." "Borrower";
                        Agreement.mkParty "GLOBAL BANK CORP." "Lender"])
                 (Some [Wire.mkFacility "Term Loan Facility"
                          500000000%float "USD"]))).
Proof. reflexivity. Qed.

(** An agreement flagged as irrelevant cannot be approved, only rejected,
    and the typed reason is what is recorded. *)
Example irrelevant_document_review :
  ReviewInterface.clickApprove Sample.busHost (Some Sample.irrelevant)
    App.handleApprove Sample.liveReview
    = (tt, Sample.liveReview, no_out) /\
  out_of (ReviewInterface.clickReject (Some Sample.irrelevant) App.handleReject
            (ReviewInterface.mkState "not a loan" UseFDC3.initial))
    = mkOut [console_log "Rejected:" (Some (LReason (Some "not a loan")));
             alert "Data rejected: not a loan"] [].
Proof. split; reflexivity. Qed.

(** Rejecting does not close the review: a later Approve still publishes. *)
Example approve_after_reject :
  Spec.published
    (snd (Workflow.run
            (Sample.plainSession ++
             [(Sample.busHost, Workflow.RejectClick);
              (Sample.busHost, Workflow.ApproveClick)])
            Workflow.initial))
    = [ReviewInterface.loanContext Sample.extracted;
       ReviewInterface.loanContext Sample.extracted].
Proof. reflexivity. Qed.

(** * Further properties of the client *)

(** ** Sessions of the application *)

(** What one event can do to the request in flight: a settlement sends
    nothing; while a request is in flight nothing else sends one and the
    request stays in flight; otherwise the event sends nothing, or sends
    the loaded text and leaves a request in flight. *)
Lemma step_requests (h : UseFDC3.Host) (e : Workflow.Event) (w : Workflow.World) :
  if Workflow.isFetchSettled e
  then requests (snd (Workflow.step h e w)) = []
  else if App.isExtracting (Workflow.app w)
  then requests (snd (Workflow.step h e w)) = [] /\
       App.isExtracting (Workflow.app (fst (Workflow.step h e w))) = true
  else (requests (snd (Workflow.step h e w)) = [] /\
        App.isExtracting (Workflow.app (fst (Workflow.step h e w))) = false) \/
       (requests (snd (Workflow.step h e w))
          = [App.documentText (Workflow.app w)] /\
        App.isExtracting (Workflow.app (fst (Workflow.step h e w))) = true).
Proof.
  destruct (render_quiet h (state_of (Workflow.dispatch h e w)))
    as (Ha & _ & Hq & _).
  rewrite step_split. simpl fst. simpl snd.
  rewrite requests_app, Hq, app_nil_r, Ha. clear Ha Hq.
  destruct w as [[text data busy] rv pending].
  destruct e; simpl Workflow.isFetchSettled; cbv iota.
  - unfold_dispatch. unfold App.uploadCardRendered. simpl.
    destruct busy; [|left];
      destruct data; try destruct file; simpl; split; reflexivity.
  - unfold_dispatch.
    destruct busy; [|left];
      destruct (nth_error pending i); simpl; split; reflexivity.
  - unfold_dispatch. destruct busy; [|left]; split; reflexivity.
  - unfold_dispatch. unfold App.uploadCardRendered, App.extractDisabled. simpl.
    destruct busy; simpl.
    + rewrite orb_true_r, andb_false_r. simpl. split; reflexivity.
    + rewrite orb_false_r, negb_involutive.
      destruct data as [d|]; simpl; [left; split; reflexivity|].
      destruct (truthy_text (trim text)) eqn:Ht; simpl.
      * unfold_handlers. simpl. rewrite Ht. simpl. right. split; reflexivity.
      * left. split; reflexivity.
  - unfold_dispatch. destruct busy; simpl; [|reflexivity].
    rewrite settle_cases. destruct (App.tryBlock o); reflexivity.
  - unfold_dispatch.
    destruct busy; [|left]; destruct rv as [r|]; simpl;
      try (split; reflexivity);
      (destruct (ReviewInterface.changeReason data value r) as [[u r'] o] eqn:E;
       simpl; unfold ReviewInterface.changeReason in E;
       destruct (ReviewInterface.reasonFieldRendered data);
       inversion E; split; reflexivity).
  - unfold_dispatch.
    destruct busy; [|left]; destruct rv as [[reason k]|]; simpl;
      try (split; reflexivity);
      (unfold ReviewInterface.clickReject; destruct data; simpl;
       split; reflexivity).
  - unfold_dispatch.
    destruct busy; [|left]; destruct rv as [[reason k]|]; simpl;
      try (split; reflexivity);
      (unfold ReviewInterface.clickApprove, ReviewInterface.approveDisabled;
       destruct data as [d|]; simpl; [|split; reflexivity];
       destruct (ReviewInterface.isSuccess d); simpl; [|split; reflexivity];
       unfold_handlers; simpl;
       destruct (UseFDC3.isAvailable k);
         [destruct (UseFDC3.fdc3 h) as [agent|]|]; simpl;
         try (split; reflexivity);
       destruct (UseFDC3.broadcast_to_bus agent _); split; reflexivity).
  - unfold_dispatch.
    destruct busy; [|left]; destruct rv as [[reason k]|]; simpl;
      try (split; reflexivity);
      (unfold_handlers; simpl; destruct (UseFDC3.subscription k);
       split; reflexivity).
Qed.

(** X2: extraction requests never overlap.  From any state of the page
    and for any sequence of user, file, network and bus events, the
    requests sent exceed the settlements received by at most one, and by
    none if the session starts with a request in flight: the Extract
    button sends a new request only after the previous one has settled. *)
Theorem requests_do_not_overlap
    (es : list (UseFDC3.Host * Workflow.Event)) (w : Workflow.World) :
  (List.length (requests (snd (Workflow.run es w)))
   <= Workflow.settlements es
      + (if App.isExtracting (Workflow.app w) then 0 else 1))%nat.
Proof.
  revert w. induction es as [|[h e] es IH]; intros w.
  - simpl. lia.
  - rewrite run_cons. simpl snd. rewrite requests_app, length_app.
    specialize (IH (fst (Workflow.step h e w))).
    pose proof (step_requests h e w) as Hs.
    unfold Workflow.settlements in *. simpl filter.
    destruct (Workflow.isFetchSettled e); simpl List.length.
    + rewrite Hs. simpl.
      destruct (App.isExtracting (Workflow.app (fst (Workflow.step h e w))));
        destruct (App.isExtracting (Workflow.app w)); lia.
    + destruct (App.isExtracting (Workflow.app w)).
      * destruct Hs as [Hr Hb]. rewrite Hr, Hb in *. simpl. lia.
      * destruct Hs as [[Hr Hb] | [Hr Hb]]; rewrite Hr, Hb in *; simpl; lia.
Qed.

Lemma onReview_cases (m : Handler ReviewInterface.State unit)
    (w : Workflow.World) :
  Workflow.onReview m w
    = match Workflow.review w with
      | Some r =>
          (tt, Workflow.mkWorld (Workflow.app w) (Some (state_of (m r)))
                 (Workflow.reads w),
           out_of (m r))
      | None => (tt, w, no_out)
      end.
Proof.
  unfold Workflow.onReview, state_of, out_of.
  destruct (Workflow.review w) as [r|]; [|reflexivity].
  destruct (m r) as [[u r'] o]. reflexivity.
Qed.

(** A handler of the review screen, run through [dispatch]. *)
Lemma dispatch_onReview (m : Handler ReviewInterface.State unit)
    (w : Workflow.World) :
  Workflow.app (state_of ((_ <- get ;; Workflow.onReview m) w)) = Workflow.app w /\
  Workflow.reads (state_of ((_ <- get ;; Workflow.onReview m) w))
    = Workflow.reads w /\
  trace (out_of ((_ <- get ;; Workflow.onReview m) w))
    = match Workflow.review w with
      | Some r => trace (out_of (m r))
      | None => []
      end.
Proof.
  unfold bind, get. rewrite onReview_cases.
  destruct (Workflow.review w) as [r|]; unfold state_of, out_of; simpl.
  - destruct (m r) as [[u r'] [n l]]. simpl. repeat split.
  - repeat split.
Qed.

(** With an agreement stored, no request in flight and no file being
    read, an event leaves the application state and the (empty) list of
    reads as they are, and publishes either nothing or the mapped
    agreement (and that only if its status is approvable). *)
Lemma dispatch_reviewing
    (h : UseFDC3.Host) (e : Workflow.Event) (w : Workflow.World)
    (d : CreditAgreement) :
  App.extractedData (Workflow.app w) = Some d ->
  App.isExtracting (Workflow.app w) = false ->
  Workflow.reads w = [] ->
  Workflow.app (state_of (Workflow.dispatch h e w)) = Workflow.app w /\
  Workflow.reads (state_of (Workflow.dispatch h e w)) = [] /\
  (Spec.published (trace (out_of (Workflow.dispatch h e w))) = [] \/
   (Spec.published (trace (out_of (Workflow.dispatch h e w)))
      = [ReviewInterface.loanContext d] /\
    Spec.approvable (Agreement.extraction_status d) = true)).
Proof.
  intros Hd Hb Hr.
  destruct e.
  1-5: destruct w as [[text data busy] rv pending]; simpl in Hd, Hb, Hr; subst;
       unfold_dispatch; try destruct i; simpl;
       (split; [reflexivity | split; [reflexivity | left; reflexivity]]).
  - pose proof (dispatch_onReview
                  (ReviewInterface.changeReason
                     (App.extractedData (Workflow.app w)) value) w)
      as (Ha & Hp & Ht).
    split; [exact Ha|]. split; [rewrite <- Hr; exact Hp|]. left.
    change (Workflow.dispatch h (Workflow.ReasonChange value) w)
      with ((_ <- get ;; Workflow.onReview
                (ReviewInterface.changeReason
                   (App.extractedData (Workflow.app w)) value)) w).
    rewrite Ht. destruct (Workflow.review w) as [r|]; [|reflexivity].
    unfold ReviewInterface.changeReason.
    destruct (ReviewInterface.reasonFieldRendered _); reflexivity.
  - pose proof (dispatch_onReview
                  (ReviewInterface.clickReject
                     (App.extractedData (Workflow.app w)) App.handleReject) w)
      as (Ha & Hp & Ht).
    split; [exact Ha|]. split; [rewrite <- Hr; exact Hp|]. left.
    change (Workflow.dispatch h Workflow.RejectClick w)
      with ((_ <- get ;; Workflow.onReview
                (ReviewInterface.clickReject
                   (App.extractedData (Workflow.app w)) App.handleReject)) w).
    rewrite Ht. destruct (Workflow.review w) as [r|]; [|reflexivity].
    rewrite Hd. reflexivity.
  - pose proof (dispatch_onReview
                  (ReviewInterface.clickApprove h
                     (App.extractedData (Workflow.app w)) App.handleApprove) w)
      as (Ha & Hp & Ht).
    split; [exact Ha|]. split; [rewrite <- Hr; exact Hp|].
    change (Workflow.dispatch h Workflow.ApproveClick w)
      with ((_ <- get ;; Workflow.onReview
                (ReviewInterface.clickApprove h
                   (App.extractedData (Workflow.app w)) App.handleApprove)) w).
    rewrite Ht. destruct (Workflow.review w) as [r|]; [|left; reflexivity].
    rewrite Hd.
    unfold ReviewInterface.clickApprove, ReviewInterface.approveDisabled.
    rewrite isSuccess_approvable.
    destruct (Spec.approvable (Agreement.extraction_status d)); simpl negb; cbv iota.
    + right. split; [apply handleApprove_published | reflexivity].
    + left. reflexivity.
  - destruct w as [[text data busy] [[reason k]|] pending];
      simpl in Hd, Hb, Hr; subst; unfold_dispatch; unfold_handlers; simpl.
    + destruct (UseFDC3.subscription k); simpl;
        (split; [reflexivity | split; [reflexivity | left; reflexivity]]).
    + split; [reflexivity | split; [reflexivity | left; reflexivity]].
Qed.

Lemma step_reviewing
    (h : UseFDC3.Host) (e : Workflow.Event) (w : Workflow.World)
    (d : CreditAgreement) :
  App.extractedData (Workflow.app w) = Some d ->
  App.isExtracting (Workflow.app w) = false ->
  Workflow.reads w = [] ->
  Workflow.app (fst (Workflow.step h e w)) = Workflow.app w /\
  Workflow.reads (fst (Workflow.step h e w)) = [] /\
  (Spec.published (snd (Workflow.step h e w)) = [] \/
   (Spec.published (snd (Workflow.step h e w))
      = [ReviewInterface.loanContext d] /\
    Spec.approvable (Agreement.extraction_status d) = true)).
Proof.
  intros Hd Hb Hr.
  destruct (dispatch_reviewing h e w d Hd Hb Hr) as (Ha & Hp & Hpub).
  destruct (render_quiet h (state_of (Workflow.dispatch h e w)))
    as (Ha' & Hp' & _ & Hq).
  rewrite step_split. simpl. rewrite published_app, Hq, app_nil_r.
  split; [rewrite Ha'; exact Ha|]. split; [rewrite Hp'; exact Hp | exact Hpub].
Qed.

(** X3: the only way out of a review is a file read that was already
    under way.  Once an agreement is stored, no request is in flight and
    no file is being read, nothing the user, the network or the bus does
    changes the document text, the stored agreement or [isExtracting], and
    no file read can start: the file input and the Extract button are not
    on screen. *)
Theorem review_is_terminal
    (es : list (UseFDC3.Host * Workflow.Event)) (w : Workflow.World)
    (d : CreditAgreement)
    (Hstored : App.extractedData (Workflow.app w) = Some d)
    (Hidle : App.isExtracting (Workflow.app w) = false)
    (Hnoreads : Workflow.reads w = []) :
  Workflow.app (fst (Workflow.run es w)) = Workflow.app w /\
  Workflow.reads (fst (Workflow.run es w)) = [].
Proof.
  revert w Hstored Hidle Hnoreads.
  induction es as [|[h e] es IH]; intros w Hd Hb Hr.
  - split; [reflexivity | exact Hr].
  - rewrite run_cons. simpl.
    destruct (step_reviewing h e w d Hd Hb Hr) as (Ha & Hp & _).
    destruct (IH (fst (Workflow.step h e w))) as [IHa IHp].
    + rewrite Ha. exact Hd.
    + rewrite Ha. exact Hb.
    + exact Hp.
    + split; [rewrite IHa; exact Ha | exact IHp].
Qed.

Lemma review_is_terminal_witness :
  Workflow.app
    (fst (Workflow.run
            [(Sample.busHost, Workflow.ApproveClick);
             (Sample.bareHost, Workflow.FileChange (Some Sample.bondText));
             (Sample.bareHost, Workflow.FileRead 0);
             (Sample.busHost, Workflow.ExtractClick);
             (Sample.busHost, Workflow.FetchSettled (Sample.server Sample.bondText));
             (Sample.busHost, Workflow.RejectClick)]
            Sample.reviewing))
    = App.mkState Sample.loanText (Some Sample.extracted) false.
Proof.
  apply (review_is_terminal _ Sample.reviewing Sample.extracted).
  - reflexivity.
  - reflexivity.
  - reflexivity.
Defined.

(** X4: during a review with no file being read, every payload handed to
    [broadcast], however many times Approve is clicked and whatever
    happens in between, is the mapping of the one stored agreement; and
    if that agreement's status is not approvable, the session publishes
    nothing at all. *)
Theorem review_publishes_stored_agreement
    (es : list (UseFDC3.Host * Workflow.Event)) (w : Workflow.World)
    (d : CreditAgreement)
    (Hstored : App.extractedData (Workflow.app w) = Some d)
    (Hidle : App.isExtracting (Workflow.app w) = false)
    (Hnoreads : Workflow.reads w = []) :
  Forall (fun c => c = ReviewInterface.loanContext d)
    (Spec.published (snd (Workflow.run es w))) /\
  (Spec.approvable (Agreement.extraction_status d) = false ->
   Spec.published (snd (Workflow.run es w)) = []).
Proof.
  revert w Hstored Hidle Hnoreads.
  induction es as [|[h e] es IH]; intros w Hd Hb Hr.
  - split; [constructor | reflexivity].
  - rewrite run_cons. simpl. rewrite published_app.
    destruct (step_reviewing h e w d Hd Hb Hr) as (Ha & Hp & Hpub).
    assert (Hd' : App.extractedData (Workflow.app (fst (Workflow.step h e w)))
                  = Some d) by (rewrite Ha; exact Hd).
    assert (Hb' : App.isExtracting (Workflow.app (fst (Workflow.step h e w)))
                  = false) by (rewrite Ha; exact Hb).
    destruct (IH _ Hd' Hb' Hp) as [IH1 IH2].
    destruct Hpub as [Hpub | [Hpub Hok]]; rewrite Hpub; simpl.
    + split; [exact IH1 | exact IH2].
    + split; [constructor; [reflexivity | exact IH1]|].
      intros Hno. congruence.
Qed.

Lemma review_publishes_stored_agreement_witness :
  Spec.published
    (snd (Workflow.run
            [(Sample.busHost, Workflow.ApproveClick);
             (Sample.bareHost, Workflow.RejectClick);
             (Sample.bareHost, Workflow.ApproveClick)]
            Sample.reviewingIrrelevant)) = [].
Proof.
  apply (review_publishes_stored_agreement _ Sample.reviewingIrrelevant
           Sample.irrelevant eq_refl eq_refl eq_refl).
  reflexivity.
Defined.

Lemma rejections_app (t1 t2 : list Effect) :
  Observe.rejections (t1 ++ t2)
    = Observe.rejections t1 ++ Observe.rejections t2.
Proof.
  induction t1 as [|e t1 IH]; simpl.
  - reflexivity.
  - destruct e as [label arg| | | | | |]; simpl; try exact IH.
    destruct arg as [[c|a|r|x]|]; try exact IH.
    destruct (String.eqb label _); [simpl; f_equal|]; exact IH.
Qed.

Lemma render_rejections (h : UseFDC3.Host) (w : Workflow.World) :
  Observe.reason_untouched w ->
  Observe.reason_untouched (state_of (Workflow.render h w)) /\
  Observe.rejections (trace (out_of (Workflow.render h w))) = [].
Proof.
  unfold Observe.reason_untouched, Workflow.render.
  destruct (App.extractedData (Workflow.app w)) as [d|];
    destruct (Workflow.review w) as [r|] eqn:Hr; simpl; intros Hu.
  - unfold state_of. simpl. rewrite Hr. split; [exact Hu | reflexivity].
  - rewrite mountEffect_cases.
    destruct (UseFDC3.fdc3 h); repeat split.
  - unfold UseFDC3.unmountCleanup, bind, get.
    destruct (UseFDC3.subscription (ReviewInterface.hook r)); repeat split.
  - unfold state_of. simpl. rewrite Hr. split; [exact I | reflexivity].
Qed.

Lemma dispatch_rejections
    (h : UseFDC3.Host) (e : Workflow.Event) (w : Workflow.World)
    (d : CreditAgreement) :
  App.extractedData (Workflow.app w) = Some d ->
  App.isExtracting (Workflow.app w) = false ->
  Workflow.reads w = [] ->
  ReviewInterface.isSuccess d = true ->
  Observe.reason_untouched w ->
  Observe.reason_untouched (state_of (Workflow.dispatch h e w)) /\
  (Observe.rejections (trace (out_of (Workflow.dispatch h e w))) = [] \/
   Observe.rejections (trace (out_of (Workflow.dispatch h e w)))
     = [Some "Rejected by analyst"]).
Proof.
  unfold Observe.reason_untouched.
  destruct w as [[text data busy] rv pending]. simpl. intros -> -> -> Hok Hu.
  destruct e; unfold_dispatch; unfold App.uploadCardRendered; simpl.
  1-5: try destruct i; simpl; (split; [exact Hu | left; reflexivity]).
  all: destruct rv as [[reason k]|]; simpl in *;
         [subst reason | split; [exact I | left; reflexivity]].
  - unfold ReviewInterface.changeReason, ReviewInterface.reasonFieldRendered.
    rewrite Hok. simpl. split; [reflexivity | left; reflexivity].
  - split; [reflexivity | right; reflexivity].
  - unfold ReviewInterface.clickApprove, ReviewInterface.approveDisabled.
    rewrite Hok. simpl. unfold_handlers. simpl.
    destruct (UseFDC3.isAvailable k); [destruct (UseFDC3.fdc3 h) as [agent|]|];
      simpl; try (split; [reflexivity | left; reflexivity]).
    destruct (UseFDC3.broadcast_to_bus agent _); simpl;
      (split; [reflexivity | left; reflexivity]).
  - unfold_handlers. simpl.
    destruct (UseFDC3.subscription k); simpl;
      (split; [reflexivity | left; reflexivity]).
Qed.

(** X5: an agreement that can be approved cannot be given a rejection
    reason.  The reason field is rendered only when Approve is disabled,
    so throughout the review of an approvable agreement, with no file
    being read, typing a reason has no effect and every rejection is
    recorded as 'Rejected by analyst'. *)
Theorem approvable_rejections_use_default
    (es : list (UseFDC3.Host * Workflow.Event)) (w : Workflow.World)
    (d : CreditAgreement)
    (Hstored : App.extractedData (Workflow.app w) = Some d)
    (Hidle : App.isExtracting (Workflow.app w) = false)
    (Hnoreads : Workflow.reads w = [])
    (Hok : Spec.approvable (Agreement.extraction_status d) = true)
    (Hfresh : Observe.reason_untouched w) :
  Forall (fun r => r = Some "Rejected by analyst")
    (Observe.rejections (snd (Workflow.run es w))).
Proof.
  rewrite <- isSuccess_approvable in Hok.
  revert w Hstored Hidle Hnoreads Hfresh.
  induction es as [|[h e] es IH]; intros w Hd Hb Hr Hu.
  - constructor.
  - rewrite run_cons. simpl. rewrite rejections_app.
    destruct (step_reviewing h e w d Hd Hb Hr) as (Ha & Hp & _).
    destruct (dispatch_rejections h e w d Hd Hb Hr Hok Hu) as [Hu1 Hr1].
    destruct (render_rejections h _ Hu1) as [Hu2 Hr2].
    apply Forall_app. split.
    + rewrite step_split. simpl. rewrite rejections_app, Hr2, app_nil_r.
      destruct Hr1 as [-> | ->]; repeat constructor.
    + apply IH.
      * rewrite Ha. exact Hd.
      * rewrite Ha. exact Hb.
      * exact Hp.
      * rewrite step_split. simpl. exact Hu2.
Qed.

Lemma approvable_rejections_use_default_witness :
  Observe.rejections
    (snd (Workflow.run
            [(Sample.busHost, Workflow.ReasonChange "wrong borrower");
             (Sample.busHost, Workflow.RejectClick);
             (Sample.busHost, Workflow.ApproveClick);
             (Sample.busHost, Workflow.RejectClick)]
            Sample.reviewing))
    = [Some "Rejected by analyst"; Some "Rejected by analyst"] /\
  Forall (fun r => r = Some "Rejected by analyst")
    (Observe.rejections
       (snd (Workflow.run
               [(Sample.busHost, Workflow.ReasonChange "wrong borrower");
                (Sample.busHost, Workflow.RejectClick);
                (Sample.busHost, Workflow.ApproveClick);
                (Sample.busHost, Workflow.RejectClick)]
               Sample.reviewing))).
Proof.
  split; [reflexivity|].
  apply (approvable_rejections_use_default
           [(Sample.busHost, Workflow.ReasonChange "wrong borrower");
            (Sample.busHost, Workflow.RejectClick);
            (Sample.busHost, Workflow.ApproveClick);
            (Sample.busHost, Workflow.RejectClick)]
           Sample.reviewing Sample.extracted
           eq_refl eq_refl eq_refl eq_refl eq_refl).
Defined.

(** ** Handlers, end to end *)



(** X6: Reject never reaches the bus.  Whatever the agreement and the
    typed reason, a click on Reject leaves the review state as it is,
    hands nothing to [broadcast], and reports a reason that is never
    empty, so the application's 'No reason provided' is never shown. *)
Theorem reject_is_local
    (data : CreditAgreement) (r : ReviewInterface.State) :
  state_of (ReviewInterface.clickReject (Some data) App.handleReject r) = r /\
  Spec.published
    (trace (out_of (ReviewInterface.clickReject (Some data) App.handleReject r)))
    = [] /\
  broadcasts
    (trace (out_of (ReviewInterface.clickReject (Some data) App.handleReject r)))
    = [] /\
  exists reason,
    truthy reason = true /\
    trace (out_of (ReviewInterface.clickReject (Some data) App.handleReject r))
      = [console_log "Rejected:" (Some (LReason (Some reason)));
         alert ("Data rejected: " ++ reason)%string].
Proof.
  destruct r as [reason k].
  unfold ReviewInterface.clickReject, ReviewInterface.handleReject,
    App.handleReject, bind, get, emit, state_of, out_of. simpl.
  repeat split.
  exists (or_else reason "Rejected by analyst"). split.
  - destruct reason; reflexivity.
  - destruct reason; reflexivity.
Qed.

(** X7: the two status banners never show together.  An agreement
    flagged 'irrelevant_document' is not a success: Approve is disabled
    for it and the reason field is on screen. *)
Theorem failure_excludes_success
    (data : CreditAgreement)
    (Hfailure : ReviewInterface.isFailure data = true) :
  ReviewInterface.isSuccess data = false /\
  ReviewInterface.approveDisabled (Some data) = true /\
  ReviewInterface.reasonFieldRendered (Some data) = true.
Proof.
  assert (Hs : ReviewInterface.isSuccess data = false).
  { unfold ReviewInterface.isFailure in Hfailure.
    unfold ReviewInterface.isSuccess.
    destruct (Agreement.extraction_status data) as [status|];
      [|discriminate Hfailure].
    apply String.eqb_eq in Hfailure. subst status. reflexivity. }
  unfold ReviewInterface.approveDisabled, ReviewInterface.reasonFieldRendered.
  rewrite Hs. repeat split.
Qed.

Lemma failure_excludes_success_witness :
  ReviewInterface.approveDisabled (Some Sample.irrelevant) = true.
Proof.
  apply (failure_excludes_success Sample.irrelevant). reflexivity.
Defined.

(** ** The hook's subscription *)

(** X8: a failed subscription is silent and does not turn the bus off.
    When [addContextListener] rejects, the mount effect logs nothing and
    keeps no subscription, the capability flag is still true, a later
    [broadcast] still goes to the bus, and the cleanup has nothing to
    release. *)
Theorem failed_subscription_is_silent
    (agent : UseFDC3.DesktopAgent) (e : Thrown)
    (c : CreditNexusLoanContext)
    (Hrejects : UseFDC3.addContextListener agent "fdc3.creditnexus.loan"
                = UseFDC3.Rejected e) :
  let h := UseFDC3.mkHost (Some agent) in
  let k := state_of (UseFDC3.mountEffect h UseFDC3.initial) in
  UseFDC3.mountEffect h UseFDC3.initial
    = (tt, UseFDC3.mkHook true None false,
       mkOut [fdc3_addContextListener "fdc3.creditnexus.loan"] []) /\
  broadcasts (trace (out_of (UseFDC3.hookBroadcast h c k))) = [c] /\
  UseFDC3.unmountCleanup k = (tt, k, no_out).
Proof.
  simpl. rewrite mountEffect_cases. simpl. rewrite Hrejects.
  unfold state_of. simpl. repeat split.
  unfold UseFDC3.hookBroadcast, bind, get. rewrite broadcast_cases. simpl.
  destruct (UseFDC3.broadcast_to_bus agent c); reflexivity.
Qed.

Lemma failed_subscription_is_silent_witness :
  UseFDC3.mountEffect
    (UseFDC3.mkHost
       (Some (UseFDC3.mkAgent
                (fun _ => UseFDC3.Rejected (Error "listener refused"))
                (fun _ => UseFDC3.Resolved))))
    UseFDC3.initial
    = (tt, UseFDC3.mkHook true None false,
       mkOut [fdc3_addContextListener "fdc3.creditnexus.loan"] []).
Proof.
  apply (failed_subscription_is_silent
           (UseFDC3.mkAgent
              (fun _ => UseFDC3.Rejected (Error "listener refused"))
              (fun _ => UseFDC3.Resolved))
           (Error "listener refused")
           (ReviewInterface.loanContext App.mockData)).
  reflexivity.
Defined.

(** X9: mount and cleanup pair up.  With the listener promise settled,
    unmounting a freshly mounted hook releases the listener exactly when
    the bus was present and the registration resolved; in mock mode the
    mount registers nothing and the cleanup releases nothing. *)
Theorem cleanup_releases_subscription (h : UseFDC3.Host) :
  out_of (UseFDC3.unmountCleanup
            (state_of (UseFDC3.mountEffect h UseFDC3.initial)))
    = match UseFDC3.fdc3 h with
      | Some agent =>
          match UseFDC3.addContextListener agent "fdc3.creditnexus.loan" with
          | UseFDC3.Resolved => mkOut [listener_unsubscribe] []
          | UseFDC3.Rejected _ => no_out
          end
      | None => no_out
      end /\
  (UseFDC3.fdc3 h = None ->
   out_of (UseFDC3.mountEffect h UseFDC3.initial)
     = mkOut [console_log
                "[FDC3 Mock] FDC3 not available, using mock mode" None] []).
Proof.
  rewrite mountEffect_cases.
  destruct (UseFDC3.fdc3 h) as [agent|]; simpl.
  - split; [|discriminate].
    destruct (UseFDC3.addContextListener agent _); reflexivity.
  - split; reflexivity.
Qed.

(** ** The drop zone *)

Lemma string_length_append (p q : string) :
  String.length (p ++ q)%string = (String.length p + String.length q)%nat.
Proof.
  induction p as [|c p IH]; simpl.
  - reflexivity.
  - rewrite IH. reflexivity.
Qed.

Lemma substring_whole (q : string) :
  substring 0 (String.length q) q = q.
Proof.
  induction q as [|c q IH]; simpl.
  - reflexivity.
  - rewrite IH. reflexivity.
Qed.

Lemma substring_after (p q : string) :
  substring (String.length p) (String.length q) (p ++ q)%string = q.
Proof.
  induction p as [|c p IH]; simpl.
  - apply substring_whole.
  - exact IH.
Qed.

Lemma substring_split (k : nat) :
  forall s : string,
    (k <= String.length s)%nat ->
    s = (substring 0 k s ++ substring k (String.length s - k) s)%string.
Proof.
  induction k as [|k IH]; intros s Hk.
  - rewrite Nat.sub_0_r, substring_whole.
    destruct s; reflexivity.
  - destruct s as [|c s]; simpl in *; [lia|].
    f_equal. apply IH. lia.
Qed.

(** [endsWith] holds exactly when the string is something followed by
    the suffix. *)
Lemma endsWith_iff (s suffix : string) :
  endsWith s suffix = true <-> exists stem, s = (stem ++ suffix)%string.
Proof.
  unfold endsWith. split.
  - intros H. apply andb_prop in H. destruct H as [Hle Heq].
    apply Nat.leb_le in Hle. apply String.eqb_eq in Heq.
    exists (substring 0 (String.length s - String.length suffix) s).
    assert (Hk : (String.length s - String.length suffix <= String.length s)%nat)
      by lia.
    pose proof (substring_split _ s Hk) as Hsplit.
    replace (String.length s - (String.length s - String.length suffix))%nat
      with (String.length suffix) in Hsplit by lia.
    rewrite Heq in Hsplit. exact Hsplit.
  - intros [stem ->].
    rewrite string_length_append.
    replace (String.length stem + String.length suffix - String.length suffix)%nat
      with (String.length stem) by lia.
    rewrite substring_after, String.eqb_refl.
    replace (Nat.leb _ _) with true; [reflexivity|].
    symmetry. apply Nat.leb_le. lia.
Qed.

Lemma isPdf_iff (file : DropZone.File) :
  DropZone.isPdf file = true <->
  DropZone.type file = "application/pdf" \/
  exists stem, DropZone.name file = (stem ++ ".pdf")%string.
Proof.
  unfold DropZone.isPdf.
  rewrite negb_andb, !negb_involutive, orb_true_iff.
  rewrite String.eqb_eq, endsWith_iff. reflexivity.
Qed.

Lemma handleDrop_cases
    (file : DropZone.File) (rest : list DropZone.File) (s : DropZone.State) :
  DropZone.handleDrop (file :: rest) s
    = if DropZone.isPdf file
      then (DropZone.mkState false (Some file) None, [file])
      else (DropZone.mkState false (DropZone.selectedFile s)
              (Some "Only PDF files are supported."), []).
Proof.
  unfold DropZone.handleDrop, DropZone.isPdf.
  destruct (negb (String.eqb (DropZone.type file) "application/pdf")
            && negb (endsWith (DropZone.name file) ".pdf")); reflexivity.
Qed.

(** X10: what a drop lets through.  Only the first dropped file counts.
    It is taken exactly when its MIME type is 'application/pdf' or its
    name ends, in lower case, with '.pdf': then it becomes the selection,
    the error is cleared and [onFileSelect] is called once with it.
    Otherwise the error message is set, the previous selection stays and
    [onFileSelect] is not called.  Either way the drag highlight ends. *)
Theorem drop_takes_first_pdf
    (file : DropZone.File) (rest : list DropZone.File) (s : DropZone.State) :
  (DropZone.isPdf file = true <->
   DropZone.type file = "application/pdf" \/
   exists stem, DropZone.name file = (stem ++ ".pdf")%string) /\
  DropZone.handleDrop (file :: rest) s
    = if DropZone.isPdf file
      then (DropZone.mkState false (Some file) None, [file])
      else (DropZone.mkState false (DropZone.selectedFile s)
              (Some "Only PDF files are supported."), []).
Proof.
  split; [apply isPdf_iff | apply handleDrop_cases].
Qed.

(** X11: the file input does not check what the drop checks.  A file
    that a drop refuses is accepted when chosen through the input: it
    becomes the selection and is passed to [onFileSelect], and an error
    left by an earlier drop stays on screen. *)
Theorem file_input_skips_pdf_check
    (file : DropZone.File) (rest : list DropZone.File) (s : DropZone.State)
    (Hnot : DropZone.isPdf file = false) :
  snd (DropZone.handleDrop (file :: rest) s) = [] /\
  DropZone.error (fst (DropZone.handleDrop (file :: rest) s))
    = Some "Only PDF files are supported." /\
  DropZone.handleFileInput (Some (file :: rest)) s
    = (DropZone.mkState (DropZone.isDragOver s) (Some file) (DropZone.error s),
       [file]).
Proof.
  rewrite handleDrop_cases, Hnot. repeat split.
Qed.

Lemma file_input_skips_pdf_check_witness :
  DropZone.handleFileInput
    (Some [DropZone.mkFile "notes.txt" "text/plain" 12%float])
    (DropZone.mkState false None (Some "Only PDF files are supported."))
    = (DropZone.mkState false
         (Some (DropZone.mkFile "notes.txt" "text/plain" 12%float))
         (Some "Only PDF files are supported."),
       [DropZone.mkFile "notes.txt" "text/plain" 12%float]).
Proof.
  apply (file_input_skips_pdf_check
           (DropZone.mkFile "notes.txt" "text/plain" 12%float) []
           (DropZone.mkState false None (Some "Only PDF files are supported."))).
  reflexivity.
Defined.

Lemma lastCall_app (c1 c2 : list DropZone.File) :
  DropZone.lastCall (c1 ++ c2)
    = match DropZone.lastCall c2 with
      | Some f => Some f
      | None => DropZone.lastCall c1
      end.
Proof.
  unfold DropZone.lastCall. rewrite rev_app_distr.
  destruct (rev c2) as [|f l]; simpl; reflexivity.
Qed.

(** One event either calls [onFileSelect] with the new selection or
    leaves the selection alone and calls nothing. *)
Lemma step_selection (e : DropZone.Event) (s : DropZone.State) :
  (snd (DropZone.step e s) = [] /\
   DropZone.selectedFile (fst (DropZone.step e s)) = DropZone.selectedFile s) \/
  (exists f, snd (DropZone.step e s) = [f] /\
             DropZone.selectedFile (fst (DropZone.step e s)) = Some f).
Proof.
  destruct e as [| |files|files]; simpl.
  - left. split; reflexivity.
  - left. split; reflexivity.
  - unfold DropZone.handleDrop. destruct files as [|f rest].
    + left. split; reflexivity.
    + destruct (negb _ && negb _).
      * left. split; reflexivity.
      * right. exists f. split; reflexivity.
  - unfold DropZone.handleFileInput. destruct files as [[|f rest]|].
    + left. split; reflexivity.
    + right. exists f. split; reflexivity.
    + left. split; reflexivity.
Qed.

Lemma dropzone_run_cons (e : DropZone.Event) (es : list DropZone.Event)
    (s : DropZone.State) :
  DropZone.run (e :: es) s
    = (fst (DropZone.run es (fst (DropZone.step e s))),
       snd (DropZone.step e s) ++ snd (DropZone.run es (fst (DropZone.step e s)))).
Proof.
  simpl. destruct (DropZone.step e s) as [s1 c1]. simpl.
  destruct (DropZone.run es s1) as [s2 c2]. reflexivity.
Qed.

(** X12: the widget and its parent agree on the current file.  After
    any sequence of drags, drops and input changes, the selection shown is
    the file most recently passed to [onFileSelect], or the selection the
    session started with if [onFileSelect] was never called. *)
Theorem selection_is_last_call (es : list DropZone.Event) (s : DropZone.State) :
  DropZone.selectedFile (fst (DropZone.run es s))
    = match DropZone.lastCall (snd (DropZone.run es s)) with
      | Some f => Some f
      | None => DropZone.selectedFile s
      end.
Proof.
  revert s. induction es as [|e es IH]; intros s.
  - reflexivity.
  - rewrite dropzone_run_cons. simpl. rewrite lastCall_app, IH.
    destruct (DropZone.lastCall (snd (DropZone.run es _))) as [f|];
      [reflexivity|].
    destruct (step_selection e s) as [[Hc Hs] | (f & Hc & Hs)];
      rewrite Hc, Hs; reflexivity.
Qed.

(** X13: the error shown is the verdict on the most recent drop.  After
    any session it is set exactly when the last drop carried a first file
    that is not a PDF; input changes and drags in between neither set nor
    clear it, and without any drop it is what it was. *)
Theorem error_is_last_drop_verdict (es : list DropZone.Event) (s : DropZone.State) :
  DropZone.error (fst (DropZone.run es s))
    = match DropZone.lastDrop es with
      | Some (file :: _) =>
          if DropZone.isPdf file then None
          else Some "Only PDF files are supported."
      | Some [] => None
      | None => DropZone.error s
      end.
Proof.
  revert s. induction es as [|e es IH]; intros s.
  - reflexivity.
  - rewrite dropzone_run_cons. simpl fst. rewrite IH. simpl DropZone.lastDrop.
    destruct (DropZone.lastDrop es) as [files|]; [reflexivity|].
    destruct e as [| |files|files]; simpl; try reflexivity.
    + destruct files as [|f rest]; [reflexivity|].
      rewrite handleDrop_cases. destruct (DropZone.isPdf f); reflexivity.
    + destruct files as [[|f rest]|]; reflexivity.
Qed.

(** ** The asset map *)

Lemma validAssets_In (assets : list MapView.LoanAsset) (a : MapView.LoanAsset) :
  In a (MapView.validAssets assets) <->
  In a assets /\ MapView.present (MapView.position a) = true.
Proof. unfold MapView.validAssets. apply filter_In. Qed.

Lemma clicks_of_markers (l : list MapView.LoanAsset) :
  map MapView.clicks (map MapView.marker l) = l.
Proof.
  induction l as [|a l IH]; simpl.
  - reflexivity.
  - rewrite IH. reflexivity.
Qed.

Lemma render_markers (assets : list MapView.LoanAsset)
    (selectedAssetId : option number) (showSatellite mapReady : bool) :
  MapView.markersOf
    (MapView.render assets selectedAssetId showSatellite mapReady)
    = map MapView.marker (MapView.validAssets assets).
Proof.
  unfold MapView.render.
  destruct (MapView.validAssets assets); reflexivity.
Qed.

(** X14: the map or the placeholder.  The placeholder is returned exactly
    when no asset has usable coordinates.  Otherwise there is one marker
    per such asset, in the order of [assets]; the map is centred on the
    first marker, never on the built-in default; and the zoom is 14 when
    there is a single marker and 5 otherwise. *)
Theorem map_shape
    (assets : list MapView.LoanAsset) (selectedAssetId : option number)
    (showSatellite mapReady : bool) :
  let view := MapView.render assets selectedAssetId showSatellite mapReady in
  (view = MapView.NoAssets <-> MapView.validAssets assets = []) /\
  map MapView.clicks (MapView.markersOf view) = MapView.validAssets assets /\
  match view with
  | MapView.NoAssets => True
  | MapView.Map mapCenter zoom satellite markers _ =>
      (exists m rest,
         markers = m :: rest /\ mapCenter = MapView.at_position m) /\
      zoom = (match markers with [_] => 14 | _ => 5 end)%nat /\
      satellite = showSatellite
  end.
Proof.
  simpl. split; [|split].
  - unfold MapView.render.
    destruct (MapView.validAssets assets); split; intros H;
      try reflexivity; discriminate H.
  - rewrite render_markers. apply clicks_of_markers.
  - unfold MapView.render, MapView.center.
    destruct (MapView.validAssets assets) as [|a l]; [exact I|].
    split; [|split].
    + exists (MapView.marker a), (map MapView.marker l). split; reflexivity.
    + destruct l; reflexivity.
    + reflexivity.
Qed.

(** X15: an asset without usable coordinates is never drawn and never
    flown to.  That covers a missing latitude or longitude, but also a
    latitude or longitude of [0], [-0] or [NaN]: an asset on the equator
    or on the prime meridian is treated as having no location. *)
Theorem unlocated_asset_is_hidden
    (assets : list MapView.LoanAsset) (a : MapView.LoanAsset)
    (selectedAssetId : option number) (showSatellite mapReady : bool)
    (Hunlocated : MapView.present (MapView.position a) = false) :
  ~ In a (map MapView.clicks
            (MapView.markersOf
               (MapView.render assets selectedAssetId showSatellite mapReady))) /\
  MapView.selectedAsset assets selectedAssetId <> Some a /\
  (forall other : option number,
     MapView.present (None, other) = false /\
     MapView.present (other, None) = false /\
     MapView.present (Some 0%float, other) = false /\
     MapView.present (other, Some 0%float) = false /\
     MapView.present (Some (-0)%float, other) = false /\
     MapView.present (other, Some nan) = false).
Proof.
  split; [|split].
  - rewrite render_markers, clicks_of_markers. intros Hin.
    apply validAssets_In in Hin. destruct Hin as [_ Hp]. congruence.
  - intros Hsel. unfold MapView.selectedAsset in Hsel.
    apply find_some in Hsel. destruct Hsel as [Hin _].
    apply validAssets_In in Hin. destruct Hin as [_ Hp]. congruence.
  - intros other. unfold MapView.present. simpl.
    repeat split; try reflexivity; apply andb_false_r.
Qed.

Lemma unlocated_asset_is_hidden_witness :
  ~ In (MapView.mkAsset 7%float "LN-7" None (Some 0%float) (Some 36.5%float)
          "COMPLIANT" None None None)
       (map MapView.clicks
          (MapView.markersOf
             (MapView.render
                [MapView.mkAsset 7%float "LN-7" None (Some 0%float)
                   (Some 36.5%float) "COMPLIANT" None None None]
                (Some 7%float) false true))).
Proof.
  apply (unlocated_asset_is_hidden
           [MapView.mkAsset 7%float "LN-7" None (Some 0%float)
              (Some 36.5%float) "COMPLIANT" None None None]
           (MapView.mkAsset 7%float "LN-7" None (Some 0%float)
              (Some 36.5%float) "COMPLIANT" None None None)
           (Some 7%float) false true).
  reflexivity.
Defined.

(** X16: the non-null assertions hold.  Whenever the map is rendered,
    its centre, the position of every marker and the recentre target all
    have a latitude and a longitude that are present and truthy; [null]
    never reaches the map. *)
Theorem map_positions_present
    (assets : list MapView.LoanAsset) (selectedAssetId : option number)
    (showSatellite mapReady : bool) :
  match MapView.render assets selectedAssetId showSatellite mapReady with
  | MapView.NoAssets => True
  | MapView.Map mapCenter _ _ markers recenter =>
      MapView.present mapCenter = true /\
      forallb (fun m => MapView.present (MapView.at_position m)) markers = true /\
      match recenter with
      | Some target => MapView.present target = true
      | None => True
      end
  end.
Proof.
  unfold MapView.render, MapView.center.
  destruct (MapView.validAssets assets) as [|a l] eqn:Hv; [exact I|].
  assert (Hall : forall x, In x (a :: l) ->
                   MapView.present (MapView.position x) = true).
  { intros x Hx. rewrite <- Hv in Hx. apply validAssets_In in Hx. apply Hx. }
  split; [|split].
  - apply Hall. left. reflexivity.
  - apply forallb_forall. intros m Hm.
    apply in_map_iff in Hm. destruct Hm as (x & <- & Hx).
    simpl. apply Hall. exact Hx.
  - destruct mapReady; [|exact I].
    destruct (MapView.selectedAsset assets selectedAssetId) as [x|] eqn:Hs;
      [|exact I].
    simpl. unfold MapView.selectedAsset in Hs. apply find_some in Hs.
    rewrite Hv in Hs. apply Hall. apply Hs.
Qed.

(** X17: when the map recentres.  It flies somewhere only if it is
    ready, a selected id was given, and an asset with usable coordinates
    carries that id; the target is then that asset's position.  Selecting
    the id of an asset without coordinates moves nothing. *)
Theorem recenter_follows_selection
    (assets : list MapView.LoanAsset) (selectedAssetId : option number)
    (showSatellite mapReady : bool) (target : MapView.LatLon)
    (Hflies : MapView.recenterOf
                (MapView.render assets selectedAssetId showSatellite mapReady)
              = Some target) :
  mapReady = true /\
  exists i a,
    selectedAssetId = Some i /\
    In a assets /\
    MapView.present (MapView.position a) = true /\
    PrimFloat.eqb (MapView.id a) i = true /\
    target = MapView.position a.
Proof.
  unfold MapView.render in Hflies.
  destruct (MapView.validAssets assets) as [|a0 l] eqn:Hv; [discriminate Hflies|].
  simpl in Hflies.
  destruct mapReady; [|discriminate Hflies]. split; [reflexivity|].
  destruct (MapView.selectedAsset assets selectedAssetId) as [a|] eqn:Hs;
    [|discriminate Hflies].
  simpl in Hflies. inversion Hflies; subst target. clear Hflies.
  unfold MapView.selectedAsset in Hs. apply find_some in Hs.
  destruct Hs as [Hin Hid].
  apply validAssets_In in Hin. destruct Hin as [Hin Hp].
  destruct selectedAssetId as [i|]; [|discriminate Hid].
  exists i, a. repeat split; assumption.
Qed.

Lemma recenter_follows_selection_witness :
  exists i a,
    Some 2%float = Some i /\
    In a [MapView.mkAsset 1%float "LN-1" None (Some 51.5%float)
            (Some (-0.125)%float) "WARNING" None None None;
          MapView.mkAsset 2%float "LN-2" None (Some 40.75%float)
            (Some (-74)%float) "BREACH" None None None] /\
    PrimFloat.eqb (MapView.id a) i = true /\
    (Some 40.75%float, Some (-74)%float) = MapView.position a.
Proof.
  destruct (recenter_follows_selection
              [MapView.mkAsset 1%float "LN-1" None (Some 51.5%float)
                 (Some (-0.125)%float) "WARNING" None None None;
               MapView.mkAsset 2%float "LN-2" None (Some 40.75%float)
                 (Some (-74)%float) "BREACH" None None None]
              (Some 2%float) false true
              (Some 40.75%float, Some (-74)%float) eq_refl)
    as (_ & i & a & Hi & Hin & _ & Hid & Ht).
  exists i, a. repeat split; assumption.
Defined.

Lemma existsb_eqb_false (key : string) (keys : list string) :
  ~ In key keys -> existsb (String.eqb key) keys = false.
Proof.
  induction keys as [|k keys IH]; simpl; intros Hn.
  - reflexivity.
  - apply orb_false_iff. split.
    + apply String.eqb_neq. intros ->. apply Hn. left. reflexivity.
    + apply IH. intros Hin. apply Hn. right. exact Hin.
Qed.

Lemma markerColor_unknown (a : MapView.LoanAsset) :
  ~ In (MapView.risk_status a)
      (MapView.ownKeys ++ MapView.objectPrototypeKeys) ->
  MapView.markerColor a = MapView.Own "#64748b".
Proof.
  intros Hunknown.
  unfold MapView.markerColor, MapView.statusColors.
  assert (Hown : existsb (String.eqb (MapView.risk_status a)) MapView.ownKeys
                 = false).
  { apply existsb_eqb_false. intros Hin. apply Hunknown.
    apply in_or_app. left. exact Hin. }
  assert (Hinh : existsb (String.eqb (MapView.risk_status a))
                   MapView.objectPrototypeKeys = false).
  { apply existsb_eqb_false. intros Hin. apply Hunknown.
    apply in_or_app. right. exact Hin. }
  unfold MapView.ownKeys in Hown. simpl in Hown.
  repeat (apply orb_false_iff in Hown; destruct Hown as [?H Hown]).
  repeat match goal with H : String.eqb _ _ = false |- _ =>
           rewrite H; clear H end.
  rewrite Hinh. reflexivity.
Qed.

(** X18: the colour of a marker.  An asset that is drawn and whose risk
    status is neither one of the five keys of [statusColors] nor a name
    every object inherits gets a marker in the PENDING colour.  A status
    that is such an inherited name ('constructor', 'toString', ...) does
    not fall back: the lookup finds the inherited member, which is truthy,
    and that member, not a colour, is what the marker is given. *)
Theorem unknown_status_is_pending
    (assets : list MapView.LoanAsset) (a : MapView.LoanAsset)
    (selectedAssetId : option number) (showSatellite mapReady : bool)
    (Hlisted : In a assets)
    (Hlocated : MapView.present (MapView.position a) = true)
    (Hunknown : ~ In (MapView.risk_status a)
                    (MapView.ownKeys ++ MapView.objectPrototypeKeys)) :
  In (MapView.mkMarker (MapView.id a) (MapView.position a)
        (MapView.Own "#64748b") a)
     (MapView.markersOf
        (MapView.render assets selectedAssetId showSatellite mapReady)) /\
  forall b : MapView.LoanAsset,
    In (MapView.risk_status b) MapView.objectPrototypeKeys ->
    MapView.markerColor b = MapView.Inherited (MapView.risk_status b).
Proof.
  split.
  - rewrite render_markers. apply in_map_iff. exists a. split.
    + unfold MapView.marker. rewrite (markerColor_unknown a Hunknown).
      reflexivity.
    + apply validAssets_In. split; assumption.
  - intros b Hb. unfold MapView.markerColor.
    simpl in Hb.
    repeat (destruct Hb as [Hb | Hb]; [rewrite <- Hb; reflexivity|]).
    destruct Hb.
Qed.

Lemma unknown_status_is_pending_witness :
  In (MapView.mkMarker 3%float (Some 48.5%float, Some 2.25%float)
        (MapView.Own "#64748b")
        (MapView.mkAsset 3%float "LN-3" None (Some 48.5%float)
           (Some 2.25%float) "UNDER_REVIEW" None None None))
     (MapView.markersOf
        (MapView.render
           [MapView.mkAsset 1%float "LN-1" None (Some 51.5%float)
              (Some (-0.125)%float) "WARNING" None None None;
            MapView.mkAsset 3%float "LN-3" None (Some 48.5%float)
              (Some 2.25%float) "UNDER_REVIEW" None None None]
           None false true)).
Proof.
  apply (unknown_status_is_pending
           [MapView.mkAsset 1%float "LN-1" None (Some 51.5%float)
              (Some (-0.125)%float) "WARNING" None None None;
            MapView.mkAsset 3%float "LN-3" None (Some 48.5%float)
              (Some 2.25%float) "UNDER_REVIEW" None None None]
           (MapView.mkAsset 3%float "LN-3" None (Some 48.5%float)
              (Some 2.25%float) "UNDER_REVIEW" None None None)
           None false true).
  - right. left. reflexivity.
  - reflexivity.
  - simpl. intros H.
    repeat (destruct H as [H|H]; [discriminate H|]). exact H.
Defined.

(** ** Further worked examples *)

(** A file read that completes during a review empties the slot, brings
    the upload card back and lets a second request be sent. *)
Example late_read_reopens_upload :
  requests (snd (Workflow.run Sample.lateReadSession Workflow.initial))
    = [Sample.loanText; Sample.bondText] /\
  Workflow.app (fst (Workflow.run Sample.lateReadSession Workflow.initial))
    = App.mkState Sample.bondText None true /\
  Workflow.review (fst (Workflow.run Sample.lateReadSession Workflow.initial))
    = None.
Proof. repeat split. Qed.

(** An ok response whose body is a falsy value leaves the slot empty and
    the Extract button enabled again. *)
Example falsy_body_leaves_slot_empty :
  App.handleExtract_settle
    (App.FetchResponse true (App.BodyJson App.JFalsy))
    (App.mkState Sample.loanText None true)
    = (tt, App.mkState Sample.loanText None false, no_out) /\
  App.extractDisabled (App.mkState Sample.loanText None false) = false.
Proof. split; reflexivity. Qed.
